(** * A verified model of the user-registration service ([main.py])

    The service is a FastAPI application with four role-specific signup
    handlers, a count query and a listing query over one MongoDB
    collection.  This development embeds the handlers, the pydantic
    schemas in front of them and the parts of their collaborators the
    handlers observe (Python strings, [hashlib.sha256], [re],
    the collection operations of pymongo), and proves properties of them. *)

From Stdlib Require Import NArith ZArith Ascii String List Lia Bool.
From stdpp Require Import gmap strings list fin_maps.

Local Open Scope N_scope.

(** ** Python strings

    A Python [str] is a sequence of Unicode code points; [len] counts code
    points.  String literals of the source are ASCII and are written with
    [lit]. *)

Module Py.

Definition codepoint := N.
Definition pystr := list codepoint.

Definition lit (s : string) : pystr :=
  map (fun a => N_of_ascii a) (list_ascii_of_string s).

(** [len(s)] *)
Definition len (s : pystr) : nat := length s.

(** Surrogate code points have no UTF-8 encoding; a [str] may still hold
    them (the [json] module produces them from unpaired escapes). *)
Definition is_surrogate (c : codepoint) : bool :=
  (0xD800 <=? c) && (c <=? 0xDFFF).

Definition is_scalar (c : codepoint) : bool :=
  (c <=? 0x10FFFF) && negb (is_surrogate c).

(** The bytes of one code point in UTF-8. *)
Definition utf8_bytes (c : codepoint) : list N :=
  if c <? 0x80 then [c]
  else if c <? 0x800 then
    [N.lor 0xC0 (N.shiftr c 6); N.lor 0x80 (N.land c 0x3F)]
  else if c <? 0x10000 then
    [N.lor 0xE0 (N.shiftr c 12);
     N.lor 0x80 (N.land (N.shiftr c 6) 0x3F);
     N.lor 0x80 (N.land c 0x3F)]
  else
    [N.lor 0xF0 (N.shiftr c 18);
     N.lor 0x80 (N.land (N.shiftr c 12) 0x3F);
     N.lor 0x80 (N.land (N.shiftr c 6) 0x3F);
     N.lor 0x80 (N.land c 0x3F)].

(** [s.encode('utf-8')]; [None] stands for [UnicodeEncodeError]. *)
Fixpoint encode_utf8 (s : pystr) : option (list N) :=
  match s with
  | [] => Some []
  | c :: s' =>
      if is_scalar c then
        match encode_utf8 s' with
        | Some bs => Some (utf8_bytes c ++ bs)
        | None => None
        end
      else None
  end.

(** [len(s.encode('utf-8'))] *)
Definition byte_len (s : pystr) : option nat :=
  match encode_utf8 s with
  | Some bs => Some (length bs)
  | None => None
  end.

(** Lower-case hexadecimal on [k] digits, as [hexdigest] and
    [str(ObjectId)] print it. *)
Definition hex_digit (d : N) : codepoint :=
  if d <? 10 then 48 + d else 87 + d.

Fixpoint hex (k : nat) (x : N) : pystr :=
  match k with
  | O => []
  | S k' => hex_digit (N.land (N.shiftr x (4 * N.of_nat k')) 0xF) :: hex k' x
  end.

(** [str(n)] for a natural number. *)
Fixpoint dec_digits (fuel : nat) (n : N) (acc : pystr) : pystr :=
  match fuel with
  | O => acc
  | S fuel' =>
      let acc' := (48 + n mod 10) :: acc in
      if n / 10 =? 0 then acc' else dec_digits fuel' (n / 10) acc'
  end.

Definition dec (n : N) : pystr := dec_digits (S (N.size_nat n)) n [].

(** The first run of code points [encode] stops on: its start and its
    end (exclusive). *)
Fixpoint bad_prefix (s : pystr) : nat :=
  match s with
  | c :: s' => if is_scalar c then O else S (bad_prefix s')
  | [] => O
  end.

Fixpoint bad_run (i : nat) (s : pystr) : option (nat * nat) :=
  match s with
  | [] => None
  | c :: s' =>
      if is_scalar c then bad_run (S i) s'
      else Some (i, S i + bad_prefix s')%nat
  end.

End Py.
Export Py.

(** ** [hashlib.sha256]

    SHA-256 (FIPS 180-4) on 32-bit words kept in [N], with the reduction
    modulo [2^32] written out. *)

Module Sha256.

Definition w32 (x : N) : N := N.land x 0xFFFFFFFF.
Definition add32 (a b : N) : N := w32 (a + b).
Definition not32 (x : N) : N := N.lxor (w32 x) 0xFFFFFFFF.
Definition rotr (n x : N) : N :=
  N.lor (N.shiftr x n) (w32 (N.shiftl x (32 - n))).

Definition Ch (x y z : N) : N := N.lxor (N.land x y) (N.land (not32 x) z).
Definition Maj (x y z : N) : N :=
  N.lxor (N.lxor (N.land x y) (N.land x z)) (N.land y z).
Definition Sigma0 (x : N) : N := N.lxor (N.lxor (rotr 2 x) (rotr 13 x)) (rotr 22 x).
Definition Sigma1 (x : N) : N := N.lxor (N.lxor (rotr 6 x) (rotr 11 x)) (rotr 25 x).
Definition sigma0 (x : N) : N := N.lxor (N.lxor (rotr 7 x) (rotr 18 x)) (N.shiftr x 3).
Definition sigma1 (x : N) : N := N.lxor (N.lxor (rotr 17 x) (rotr 19 x)) (N.shiftr x 10).

(** The round constants are the first 32 bits of the fractional parts of
    the cube roots of the first 64 primes; the initial hash value takes
    the square roots of the first 8. *)
Definition is_prime (n : nat) : bool :=
  forallb (fun d => negb (Nat.eqb (n mod d) 0)) (seq 2 (n - 2)).

Definition primes : list N :=
  map N.of_nat (List.filter is_prime (seq 2 310)).

Fixpoint cube_root (bits : nat) (acc n : N) : N :=
  match bits with
  | O => acc
  | S bits' =>
      let c := acc + N.shiftl 1 (N.of_nat bits') in
      if c * c * c <=? n then cube_root bits' c n else cube_root bits' acc n
  end.

Definition K : list N :=
  Eval vm_compute in
    map (fun p => w32 (cube_root 36 0 (N.shiftl p 96))) primes.

Definition H0 : list N :=
  Eval vm_compute in
    map (fun p => w32 (N.sqrt (N.shiftl p 64))) (take 8 primes).

(** Big-endian bytes of a [k]-byte quantity. *)
Fixpoint be_bytes (k : nat) (x : N) : list N :=
  match k with
  | O => []
  | S k' => N.land (N.shiftr x (8 * N.of_nat k')) 0xFF :: be_bytes k' x
  end.

(** Padding: a [0x80] byte, zeros up to 56 modulo 64, the bit length on
    eight bytes. *)
Definition pad (msg : list N) : list N :=
  let n := length msg in
  let zeros := ((119 - n `mod` 64) `mod` 64)%nat in
  msg ++ [0x80] ++ repeat 0 zeros ++ be_bytes 8 (8 * N.of_nat n).

Fixpoint be_word (bs : list N) (acc : N) : N :=
  match bs with
  | [] => acc
  | b :: bs' => be_word bs' (N.lor (N.shiftl acc 8) b)
  end.

Fixpoint words (n : nat) (bs : list N) : list N :=
  match n with
  | O => []
  | S n' => be_word (take 4 bs) 0 :: words n' (drop 4 bs)
  end.

(** The message schedule, most recent word first in [acc]. *)
Fixpoint schedule (n : nat) (acc : list N) : list N :=
  match n with
  | O => rev acc
  | S n' =>
      let w := add32 (add32 (sigma1 (nth 1 acc 0)) (nth 6 acc 0))
                     (add32 (sigma0 (nth 14 acc 0)) (nth 15 acc 0)) in
      schedule n' (w :: acc)
  end.

Record regs := Regs { ra : N; rb : N; rc : N; rd : N; re : N; rf : N; rg : N; rh : N }.

Definition round (s : regs) (kw : N * N) : regs :=
  let '(k, w) := kw in
  let t1 := add32 (add32 (add32 (rh s) (Sigma1 (re s))) (Ch (re s) (rf s) (rg s)))
                  (add32 k w) in
  let t2 := add32 (Sigma0 (ra s)) (Maj (ra s) (rb s) (rc s)) in
  Regs (add32 t1 t2) (ra s) (rb s) (rc s) (add32 (rd s) t1) (re s) (rf s) (rg s).

Definition compress (h : regs) (block : list N) : regs :=
  let w := schedule 48 (rev (words 16 block)) in
  let s := fold_left round (combine K w) h in
  Regs (add32 (ra h) (ra s)) (add32 (rb h) (rb s)) (add32 (rc h) (rc s))
       (add32 (rd h) (rd s)) (add32 (re h) (re s)) (add32 (rf h) (rf s))
       (add32 (rg h) (rg s)) (add32 (rh h) (rh s)).

Fixpoint blocks (n : nat) (h : regs) (bs : list N) : regs :=
  match n with
  | O => h
  | S n' => blocks n' (compress h (take 64 bs)) (drop 64 bs)
  end.

Definition init : regs :=
  Regs (nth 0 H0 0) (nth 1 H0 0) (nth 2 H0 0) (nth 3 H0 0)
       (nth 4 H0 0) (nth 5 H0 0) (nth 6 H0 0) (nth 7 H0 0).

Definition digest_words (msg : list N) : list N :=
  let p := pad msg in
  let s := blocks (length p / 64)%nat init p in
  [ra s; rb s; rc s; rd s; re s; rf s; rg s; rh s].

(** [hashlib.sha256(data).hexdigest()] *)
Definition hexdigest (msg : list N) : pystr :=
  concat (map (hex 8) (digest_words msg)).

End Sha256.


(** ** Regular expressions

    The only pattern of the source is [^\+92 \d{11}$].  It is matched by
    two engines: pydantic checks a [Field(pattern=...)] constraint with
    the Rust [regex] crate (a search), and the [validate_phone] validators
    call Python's [re.match].  Both read [\d] on text as the Unicode
    decimal digits (general category Nd); they differ on [$], which in
    Python also matches just before a final newline. *)

Module Re.

Inductive atom :=
| Chr (c : codepoint)      (* a literal character *)
| ClassD.                  (* \d *)

Inductive node :=
| Caret                              (* ^ *)
| Dollar                             (* $ *)
| One (a : atom)
| Exactly (n : nat) (a : atom).      (* a{n} *)

Definition regex := list node.

Inductive engine := PythonRe | RustRegex.

(** General category Nd (Unicode 15.0): 64 runs of digits. *)
Definition Nd : list (N * N) :=
  [(0x30, 0x39); (0x660, 0x669); (0x6F0, 0x6F9); (0x7C0, 0x7C9);
   (0x966, 0x96F); (0x9E6, 0x9EF); (0xA66, 0xA6F); (0xAE6, 0xAEF);
   (0xB66, 0xB6F); (0xBE6, 0xBEF); (0xC66, 0xC6F); (0xCE6, 0xCEF);
   (0xD66, 0xD6F); (0xDE6, 0xDEF); (0xE50, 0xE59); (0xED0, 0xED9);
   (0xF20, 0xF29); (0x1040, 0x1049); (0x1090, 0x1099); (0x17E0, 0x17E9);
   (0x1810, 0x1819); (0x1946, 0x194F); (0x19D0, 0x19D9); (0x1A80, 0x1A89);
   (0x1A90, 0x1A99); (0x1B50, 0x1B59); (0x1BB0, 0x1BB9); (0x1C40, 0x1C49);
   (0x1C50, 0x1C59); (0xA620, 0xA629); (0xA8D0, 0xA8D9); (0xA900, 0xA909);
   (0xA9D0, 0xA9D9); (0xA9F0, 0xA9F9); (0xAA50, 0xAA59); (0xABF0, 0xABF9);
   (0xFF10, 0xFF19); (0x104A0, 0x104A9); (0x10D30, 0x10D39);
   (0x11066, 0x1106F); (0x110F0, 0x110F9); (0x11136, 0x1113F);
   (0x111D0, 0x111D9); (0x112F0, 0x112F9); (0x11450, 0x11459);
   (0x114D0, 0x114D9); (0x11650, 0x11659); (0x116C0, 0x116C9);
   (0x11730, 0x11739); (0x118E0, 0x118E9); (0x11950, 0x11959);
   (0x11C50, 0x11C59); (0x11D50, 0x11D59); (0x11DA0, 0x11DA9);
   (0x11F50, 0x11F59); (0x16A60, 0x16A69); (0x16AC0, 0x16AC9);
   (0x16B50, 0x16B59); (0x1D7CE, 0x1D7FF); (0x1E140, 0x1E149);
   (0x1E2F0, 0x1E2F9); (0x1E4F0, 0x1E4F9); (0x1E950, 0x1E959);
   (0x1FBF0, 0x1FBF9)].

Definition is_decimal (c : codepoint) : bool :=
  existsb (fun r => (fst r <=? c) && (c <=? snd r)) Nd.


Definition atom_matches (a : atom) (c : codepoint) : bool :=
  match a with
  | Chr c' => c =? c'
  | ClassD => is_decimal c
  end.

(** Consume exactly [n] characters matching [a]. *)
Fixpoint eat (n : nat) (a : atom) (s : pystr) : option pystr :=
  match n with
  | O => Some s
  | S n' =>
      match s with
      | c :: s' => if atom_matches a c then eat n' a s' else None
      | [] => None
      end
  end.

Definition at_end (e : engine) (s : pystr) : bool :=
  match e, s with
  | _, [] => true
  | PythonRe, [10] => true
  | _, _ => false
  end.

(** Match [r] at position [pos], where [s] is the text from [pos] on. *)
Fixpoint match_here (e : engine) (r : regex) (pos : nat) (s : pystr) : bool :=
  match r with
  | [] => true
  | Caret :: r' => Nat.eqb pos 0 && match_here e r' pos s
  | Dollar :: r' => at_end e s && match_here e r' pos s
  | One a :: r' =>
      match eat 1 a s with
      | Some s' => match_here e r' (S pos) s'
      | None => false
      end
  | Exactly n a :: r' =>
      match eat n a s with
      | Some s' => match_here e r' (n + pos) s'
      | None => false
      end
  end.

(** [re.match(r, s) is not None]: a match starting at position 0. *)
Definition py_match (r : regex) (s : pystr) : bool := match_here PythonRe r 0 s.

(** [Regex::is_match]: a match starting anywhere. *)
Fixpoint search_from (r : regex) (pos : nat) (s : pystr) : bool :=
  match_here RustRegex r pos s ||
  match s with
  | [] => false
  | _ :: s' => search_from r (S pos) s'
  end.

Definition rust_is_match (r : regex) (s : pystr) : bool := search_from r 0 s.

End Re.

(** [r'^\+92 \d{11}$'] *)
Definition phone_pattern : Re.regex :=
  [Re.Caret; Re.One (Re.Chr 43); Re.One (Re.Chr 57); Re.One (Re.Chr 50);
   Re.One (Re.Chr 32); Re.Exactly 11 Re.ClassD; Re.Dollar].

(** ** Documents and the collection

    A document is a dictionary from field names to values; the values
    that occur in this collection are scalars. *)

Inductive value :=
| VNull
| VBool (b : bool)
| VInt (n : Z)
| VStr (s : pystr)
| VOid (o : N).            (* bson.ObjectId *)

#[global] Instance value_eq_dec : EqDecision value.
Proof. solve_decision. Defined.

Abbreviation document := (gmap string value).

(** A filter document of equality conditions, such as
    [{"email": user.email}]; [{}] is the empty list. *)
Definition query := list (string * value).

(** One condition of a filter.  A condition on [None] holds of a document
    whose field is null and of a document without the field. *)
Definition field_matches (d : document) (kv : string * value) : bool :=
  match snd kv with
  | VNull =>
      match d !! fst kv with
      | None | Some VNull => true
      | Some _ => false
      end
  | v => bool_decide (d !! fst kv = Some v)
  end.

Definition matches (q : query) (d : document) : bool :=
  forallb (field_matches d) q.

(** The store operations a request performs, in order. *)
Inductive op :=
| FindOne (q : query)
| InsertOne (d : document)
| CountDocuments (q : query)
| Find (q : query) (exclude : list string).

(** What a request runs against: the collection in natural order, the
    ObjectId generator, the failures the driver is about to report (one
    entry per store operation, [Some msg] for an operation that raises with
    [str(e) = msg]), the entropy source the password hasher draws salts
    from, and the log of store operations. *)
Record world := World {
  coll : list document;
  next_oid : N;
  faults : list (option pystr);
  entropy : nat -> N;
  drawn : nat;
  oplog : list op
}.

(** ** Exceptions and the request monad *)

Inductive exn :=
| HTTPException (status_code : N) (detail : pystr)
| PyMongoError (msg : pystr)
| KeyError (key : string)
| UnicodeEncodeError (object : pystr).

Inductive outcome (A : Type) :=
| Return (a : A)
| Raise (e : exn).
Arguments Return {A} a.
Arguments Raise {A} e.

Definition M (A : Type) : Type := world -> outcome A * world.

Definition ret {A} (a : A) : M A := fun w => (Return a, w).
Definition raise {A} (e : exn) : M A := fun w => (Raise e, w).
Definition bind {A B} (m : M A) (k : A -> M B) : M B :=
  fun w =>
    match m w with
    | (Return a, w') => k a w'
    | (Raise e, w') => (Raise e, w')
    end.

(** [try: body except Exception as e: handler(e)] *)
Definition try_except {A} (body : M A) (handler : exn -> M A) : M A :=
  fun w =>
    match body w with
    | (Return a, w') => (Return a, w')
    | (Raise e, w') => handler e w'
    end.

Notation "x <- m ;; k" := (bind m (fun x => k))
  (at level 100, m at next level, right associativity).
Notation "m ;;; k" := (bind m (fun _ => k))
  (at level 100, right associativity).

(** [str(e)].  An [HTTPException] prints as [status: detail]; an encoding
    error names the offending position(s). *)
Definition exn_str (e : exn) : pystr :=
  match e with
  | PyMongoError msg => msg
  | KeyError k => lit "'" ++ lit k ++ lit "'"
  | HTTPException status detail => dec status ++ lit ": " ++ detail
  | UnicodeEncodeError obj =>
      match bad_run 0 obj with
      | Some (i, j) =>
          if Nat.eqb j (S i) then
            lit "'utf-8' codec can't encode character '\u" ++ hex 4 (nth i obj 0)
            ++ lit "' in position " ++ dec (N.of_nat i) ++ lit ": surrogates not allowed"
          else
            lit "'utf-8' codec can't encode characters in position "
            ++ dec (N.of_nat i) ++ lit "-" ++ dec (N.of_nat (j - 1))
            ++ lit ": surrogates not allowed"
      | None => []
      end
  end.

(** ** The collection operations (pymongo)

    Each operation is logged and first asks the driver whether it fails. *)

Definition log_op (o : op) (w : world) : world :=
  World (coll w) (next_oid w) (tl (faults w)) (entropy w) (drawn w) (oplog w ++ [o]).

Definition store (d : document) (oid : N) (w : world) : world :=
  World (coll w ++ [d]) oid (faults w) (entropy w) (drawn w) (oplog w).

Definition draw (w : world) : world :=
  World (coll w) (next_oid w) (faults w) (entropy w) (S (drawn w)) (oplog w).

Definition driver (o : op) : M unit :=
  fun w =>
    match faults w with
    | Some msg :: _ => (Raise (PyMongoError msg), log_op o w)
    | _ => (Return tt, log_op o w)
    end.

(** [collection.find_one(q)]: the first matching document, or [None]. *)
Definition find_one (q : query) : M (option document) :=
  driver (FindOne q) ;;; fun w => (Return (List.find (matches q) (coll w)), w).

(** [collection.count_documents(q)] *)
Definition count_documents (q : query) : M nat :=
  driver (CountDocuments q) ;;;
  fun w => (Return (length (List.filter (matches q) (coll w))), w).

(** [collection.find(q, {k: 0 for k in exclude})], read to the end. *)
Definition find (q : query) (exclude : list string) : M (list document) :=
  driver (Find q exclude) ;;;
  fun w => (Return (map (fun d => foldr delete d exclude)
                        (List.filter (matches q) (coll w))), w).

(** [collection.insert_one(d).inserted_id]: a document without [_id] gets
    a new ObjectId. *)
Definition insert_one (d : document) : M value :=
  driver (InsertOne d) ;;;
  fun w =>
    match d !! "_id"%string with
    | Some v => (Return v, store d (next_oid w) w)
    | None =>
        let oid := VOid (next_oid w) in
        (Return oid, store (<["_id"%string := oid]> d) (next_oid w + 1) w)
    end.

(** [bool(existing_user)]: [None] and the empty dictionary are false. *)
Definition truthy (r : option document) : bool :=
  match r with
  | Some d => negb (bool_decide (d = ∅))
  | None => false
  end.

(** [str(v)] *)
Definition py_str (v : value) : pystr :=
  match v with
  | VNull => lit "None"
  | VBool true => lit "True"
  | VBool false => lit "False"
  | VInt n => if (n <? 0)%Z then lit "-" ++ dec (Z.abs_N n) else dec (Z.to_N n)
  | VStr s => s
  | VOid o => hex 24 o
  end.

(** [d[k]] *)
Definition getitem (d : document) (k : string) : M value :=
  match d !! k with
  | Some v => ret v
  | None => raise (KeyError k)
  end.

(** [d[k]] for a key the dictionary literal just above holds a string
    under. *)
Definition getstr (d : document) (k : string) : pystr :=
  match d !! k with
  | Some (VStr s) => s
  | _ => []
  end.

(** A dictionary literal. *)
Definition dict (l : list (string * value)) : document := list_to_map l.

(** [None] or a string, as a value. *)
Definition opt_str (o : option pystr) : value :=
  match o with
  | Some s => VStr s
  | None => VNull
  end.

(** ** Password hashing

    [pwd_context = CryptContext(schemes=["bcrypt"])] is passlib's; its
    [hash] draws a salt and computes bcrypt from the salt and the secret. *)

Class CryptContext := {
  ctx_hash : N -> pystr -> pystr;       (* salt, secret *)
  ctx_verify : pystr -> pystr -> bool   (* secret, hash *)
}.

Definition draw_salt : M N :=
  fun w => (Return (entropy w (drawn w)), draw w).

Section Hashing.
Context `{CryptContext}.

Definition hash_password (password : pystr) : M pystr :=
  match encode_utf8 password with
  | None => raise (UnicodeEncodeError password)
  | Some bytes =>
      let sha256_hash := Sha256.hexdigest bytes in
      salt <- draw_salt ;;
      ret (ctx_hash salt sha256_hash)
  end.

End Hashing.

(** ** Validation (pydantic)

    A request body is a JSON object; a field is validated by the core
    schema of its annotation and then by the model's [field_validator].
    All failing fields are reported. *)

Module Pydantic.

Inductive error_type :=
| missing
| string_type
| string_unicode
| string_too_short (min_length : nat)
| string_too_long (max_length : nat)
| string_pattern_mismatch (pattern : Re.regex)
| value_error (msg : pystr).

Definition errors := list (string * error_type).

(** [email_validator.validate_email]: the normalized address, or the
    reason the address is refused. *)
Class EmailValidator := {
  validate_email : pystr -> pystr + pystr
}.

(** [str] *)
Definition str (v : value) : error_type + pystr :=
  match v with
  | VStr s => inr s
  | _ => inl string_type
  end.

Definition check_min_length (min_length : option nat) (s : pystr) : option error_type :=
  match min_length with
  | Some n => if (len s <? n)%nat then Some (string_too_short n) else None
  | None => None
  end.

Definition check_max_length (max_length : option nat) (s : pystr) : option error_type :=
  match max_length with
  | Some n => if (n <? len s)%nat then Some (string_too_long n) else None
  | None => None
  end.

Definition check_pattern (pattern : option Re.regex) (s : pystr) : option error_type :=
  match pattern with
  | Some r => if Re.rust_is_match r s then None else Some (string_pattern_mismatch r)
  | None => None
  end.

(** [str] under [Field(min_length=..., max_length=..., pattern=...)]:
    the text must be well-formed Unicode; lengths count characters; the
    checks run in this order and the first failure is reported. *)
Definition constrained_str (min_length max_length : option nat)
    (pattern : option Re.regex) (v : value) : error_type + pystr :=
  match v with
  | VStr s =>
      if negb (forallb is_scalar s) then inl string_unicode
      else match check_min_length min_length s with
      | Some e => inl e
      | None =>
      match check_max_length max_length s with
      | Some e => inl e
      | None =>
      match check_pattern pattern s with
      | Some e => inl e
      | None => inr s
      end end end
  | _ => inl string_type
  end.

(** [EmailStr] *)
Definition EmailStr `{EmailValidator} (v : value) : error_type + pystr :=
  match v with
  | VStr s =>
      match validate_email s with
      | inr normalized => inr normalized
      | inl reason =>
          inl (value_error (lit "value is not a valid email address: " ++ reason))
      end
  | _ => inl string_type
  end.

(** [Optional[T]] *)
Definition Optional {A} (f : value -> error_type + A) (v : value)
    : error_type + option A :=
  match v with
  | VNull => inr None
  | _ => match f v with
         | inr a => inr (Some a)
         | inl e => inl e
         end
  end.

(** A [field_validator] (mode "after") raising [ValueError(msg)]. *)
Definition after {A} (f : value -> error_type + A) (g : A -> pystr + A)
    (v : value) : error_type + A :=
  match f v with
  | inr a => match g a with
             | inr a' => inr a'
             | inl msg => inl (value_error msg)
             end
  | inl e => inl e
  end.

(** A field declared with [...]: required. *)
Definition required {A} (body : document) (k : string)
    (f : value -> error_type + A) : errors + A :=
  match body !! k with
  | None => inl [(k, missing)]
  | Some v => match f v with
              | inr a => inr a
              | inl e => inl [(k, e)]
              end
  end.

(** A field with a default; a validator does not run on the default. *)
Definition with_default {A} (body : document) (k : string) (default : A)
    (f : value -> error_type + A) : errors + A :=
  match body !! k with
  | None => inr default
  | Some v => match f v with
              | inr a => inr a
              | inl e => inl [(k, e)]
              end
  end.

(** Next field of a model: errors accumulate in field order. *)
Definition field {A B} (acc : errors + (A -> B)) (x : errors + A) : errors + B :=
  match acc, x with
  | inr f, inr a => inr (f a)
  | inl e1, inl e2 => inl (e1 ++ e2)
  | inl e, inr _ => inl e
  | inr _, inl e => inl e
  end.

End Pydantic.

Definition phone_format : pystr :=
  lit "Phone format: +92 12345678910 (space ke baad 11 digits)".

(** ** The schemas (pydantic models) *)

Module AdminSignup.
Record t := Build {
  email : pystr;
  password : pystr;
  phone : pystr;
  name : pystr;
  admin_code : pystr
}.

Definition validate_phone (v : pystr) : pystr + pystr :=
  if negb (Re.py_match phone_pattern v) then inl phone_format else inr v.

(** [phone: str = Field(..., pattern=r'^\+92 \d{11}$')] with its validator. *)
Definition phone_field : value -> Pydantic.error_type + pystr :=
  Pydantic.after (Pydantic.constrained_str None None (Some phone_pattern))
    validate_phone.

Definition validate `{Pydantic.EmailValidator} (body : document) : Pydantic.errors + t :=
  Pydantic.field (Pydantic.field (Pydantic.field (Pydantic.field (Pydantic.field
    (inr Build)
    (Pydantic.required body "email" Pydantic.EmailStr))
    (Pydantic.required body "password"
       (Pydantic.constrained_str (Some 8%nat) (Some 72%nat) None)))
    (Pydantic.required body "phone" phone_field))
    (Pydantic.required body "name"
       (Pydantic.constrained_str (Some 2%nat) (Some 100%nat) None)))
    (Pydantic.required body "admin_code" Pydantic.str).
End AdminSignup.

Module StudentSignup.
Record t := Build {
  email : pystr;
  password : pystr;
  phone : option pystr;
  name : pystr;
  institution_name : pystr
}.

Definition validate_phone (v : option pystr) : pystr + option pystr :=
  match v with
  | Some s => if negb (Re.py_match phone_pattern s) then inl phone_format else inr v
  | None => inr v
  end.

(** [phone: Optional[str] = Field(None, pattern=r'^\+92 \d{11}$')] with its
    validator. *)
Definition phone_field : value -> Pydantic.error_type + option pystr :=
  Pydantic.after
    (Pydantic.Optional (Pydantic.constrained_str None None (Some phone_pattern)))
    validate_phone.

Definition validate `{Pydantic.EmailValidator} (body : document) : Pydantic.errors + t :=
  Pydantic.field (Pydantic.field (Pydantic.field (Pydantic.field (Pydantic.field
    (inr Build)
    (Pydantic.required body "email" Pydantic.EmailStr))
    (Pydantic.required body "password"
       (Pydantic.constrained_str (Some 8%nat) (Some 72%nat) None)))
    (Pydantic.with_default body "phone" None phone_field))
    (Pydantic.required body "name"
       (Pydantic.constrained_str (Some 2%nat) (Some 100%nat) None)))
    (Pydantic.required body "institution_name"
       (Pydantic.constrained_str (Some 2%nat) None None)).
End StudentSignup.

Module SchoolCollegeSignup.
Record t := Build {
  email : pystr;
  password : pystr;
  phone : pystr;
  institute_name : pystr;
  address : pystr;
  head_of_institute : option pystr
}.

Definition validate_phone (v : pystr) : pystr + pystr :=
  if negb (Re.py_match phone_pattern v) then inl phone_format else inr v.

(** [phone: str = Field(..., pattern=r'^\+92 \d{11}$')] with its validator. *)
Definition phone_field : value -> Pydantic.error_type + pystr :=
  Pydantic.after (Pydantic.constrained_str None None (Some phone_pattern))
    validate_phone.

Definition validate `{Pydantic.EmailValidator} (body : document) : Pydantic.errors + t :=
  Pydantic.field (Pydantic.field (Pydantic.field (Pydantic.field (Pydantic.field
  (Pydantic.field
    (inr Build)
    (Pydantic.required body "email" Pydantic.EmailStr))
    (Pydantic.required body "password"
       (Pydantic.constrained_str (Some 8%nat) (Some 72%nat) None)))
    (Pydantic.required body "phone" phone_field))
    (Pydantic.required body "institute_name"
       (Pydantic.constrained_str (Some 2%nat) (Some 200%nat) None)))
    (Pydantic.required body "address"
       (Pydantic.constrained_str (Some 5%nat) None None)))
    (Pydantic.with_default body "head_of_institute" None
       (Pydantic.Optional Pydantic.str)).
End SchoolCollegeSignup.

Module PromoterSignup.
Record t := Build {
  email : pystr;
  password : pystr;
  phone : pystr;
  name : pystr
}.

Definition validate_phone (v : pystr) : pystr + pystr :=
  if negb (Re.py_match phone_pattern v) then inl phone_format else inr v.

(** [phone: str = Field(..., pattern=r'^\+92 \d{11}$')] with its validator. *)
Definition phone_field : value -> Pydantic.error_type + pystr :=
  Pydantic.after (Pydantic.constrained_str None None (Some phone_pattern))
    validate_phone.

Definition validate `{Pydantic.EmailValidator} (body : document) : Pydantic.errors + t :=
  Pydantic.field (Pydantic.field (Pydantic.field (Pydantic.field
    (inr Build)
    (Pydantic.required body "email" Pydantic.EmailStr))
    (Pydantic.required body "password"
       (Pydantic.constrained_str (Some 8%nat) (Some 72%nat) None)))
    (Pydantic.required body "phone" phone_field))
    (Pydantic.required body "name"
       (Pydantic.constrained_str (Some 2%nat) (Some 100%nat) None)).
End PromoterSignup.

Module UserResponse.
Record t := Build {
  id : pystr;
  email : pystr;
  user_type : pystr;
  message : pystr
}.
End UserResponse.

Definition ADMIN_SECRET_CODE : pystr := lit "ADMIN2024SECRET".

Definition HTTP_201_CREATED : N := 201.
Definition HTTP_400_BAD_REQUEST : N := 400.
Definition HTTP_403_FORBIDDEN : N := 403.
Definition HTTP_500_INTERNAL_SERVER_ERROR : N := 500.

(** ** The endpoints *)

(** [if cond: raise e] *)
Definition raise_if (cond : bool) (e : exn) : M unit :=
  if cond then raise e else ret tt.

Definition email_taken : exn :=
  HTTPException HTTP_400_BAD_REQUEST (lit "Email already registered!").
Definition phone_taken : exn :=
  HTTPException HTTP_400_BAD_REQUEST (lit "Phone number already registered!").
Definition registration_failed (e : exn) : exn :=
  HTTPException HTTP_500_INTERNAL_SERVER_ERROR (lit "Registration failed: " ++ exn_str e).

Section Endpoints.
Context `{CryptContext}.

(** [POST /signup/admin] *)
Definition admin_signup (user : AdminSignup.t) : M UserResponse.t :=
  raise_if (negb (bool_decide (AdminSignup.admin_code user = ADMIN_SECRET_CODE)))
    (HTTPException HTTP_403_FORBIDDEN (lit "Invalid admin code. Access denied!")) ;;;
  existing_user <- find_one [("email"%string, VStr (AdminSignup.email user))] ;;
  raise_if (truthy existing_user) email_taken ;;;
  existing_user <- find_one [("phone"%string, VStr (AdminSignup.phone user))] ;;
  raise_if (truthy existing_user) phone_taken ;;;
  hashed <- hash_password (AdminSignup.password user) ;;
  let user_document := dict [
    ("email"%string, VStr (AdminSignup.email user));
    ("password"%string, VStr hashed);
    ("phone"%string, VStr (AdminSignup.phone user));
    ("name"%string, VStr (AdminSignup.name user));
    ("user_type"%string, VStr (lit "admin"));
    ("is_active"%string, VBool true)] in
  try_except
    (inserted_id <- insert_one user_document ;;
     ret (UserResponse.Build
            (py_str inserted_id)
            (AdminSignup.email user)
            (getstr user_document "user_type")
            (lit "Admin registered successfully!")))
    (fun e => raise (registration_failed e)).

(** [POST /signup/student] *)
Definition student_signup (user : StudentSignup.t) : M UserResponse.t :=
  existing_user <- find_one [("email"%string, VStr (StudentSignup.email user))] ;;
  raise_if (truthy existing_user) email_taken ;;;
  existing_user <- find_one [("phone"%string, opt_str (StudentSignup.phone user))] ;;
  raise_if (truthy existing_user) phone_taken ;;;
  hashed <- hash_password (StudentSignup.password user) ;;
  let user_document := dict [
    ("email"%string, VStr (StudentSignup.email user));
    ("password"%string, VStr hashed);
    ("name"%string, VStr (StudentSignup.name user));
    ("user_type"%string, VStr (lit "student"));
    ("is_active"%string, VBool true);
    ("institution_name"%string, VStr (StudentSignup.institution_name user))] in
  let user_document :=
    match StudentSignup.phone user with
    | Some phone => <["phone"%string := VStr phone]> user_document
    | None => user_document
    end in
  try_except
    (inserted_id <- insert_one user_document ;;
     ret (UserResponse.Build
            (py_str inserted_id)
            (StudentSignup.email user)
            (getstr user_document "user_type")
            (lit "Student registered successfully!")))
    (fun e => raise (registration_failed e)).

(** [POST /signup/school_college] *)
Definition school_college_signup (user : SchoolCollegeSignup.t) : M UserResponse.t :=
  existing_user <- find_one [("email"%string, VStr (SchoolCollegeSignup.email user))] ;;
  raise_if (truthy existing_user) email_taken ;;;
  existing_user <- find_one [("phone"%string, VStr (SchoolCollegeSignup.phone user))] ;;
  raise_if (truthy existing_user) phone_taken ;;;
  hashed <- hash_password (SchoolCollegeSignup.password user) ;;
  let user_document := dict [
    ("email"%string, VStr (SchoolCollegeSignup.email user));
    ("password"%string, VStr hashed);
    ("phone"%string, VStr (SchoolCollegeSignup.phone user));
    ("institute_name"%string, VStr (SchoolCollegeSignup.institute_name user));
    ("user_type"%string, VStr (lit "school/college"));
    ("is_active"%string, VBool true);
    ("address"%string, VStr (SchoolCollegeSignup.address user))] in
  let user_document :=
    match SchoolCollegeSignup.head_of_institute user with
    | Some head => <["head_of_institute"%string := VStr head]> user_document
    | None => user_document
    end in
  try_except
    (inserted_id <- insert_one user_document ;;
     ret (UserResponse.Build
            (py_str inserted_id)
            (SchoolCollegeSignup.email user)
            (getstr user_document "user_type")
            (lit "School/College registered successfully!")))
    (fun e => raise (registration_failed e)).

(** [POST /signup/promoter] *)
Definition promoter_signup (user : PromoterSignup.t) : M UserResponse.t :=
  existing_user <- find_one [("email"%string, VStr (PromoterSignup.email user))] ;;
  raise_if (truthy existing_user) email_taken ;;;
  existing_user <- find_one [("phone"%string, VStr (PromoterSignup.phone user))] ;;
  raise_if (truthy existing_user) phone_taken ;;;
  hashed <- hash_password (PromoterSignup.password user) ;;
  let user_document := dict [
    ("email"%string, VStr (PromoterSignup.email user));
    ("password"%string, VStr hashed);
    ("phone"%string, VStr (PromoterSignup.phone user));
    ("name"%string, VStr (PromoterSignup.name user));
    ("user_type"%string, VStr (lit "promoter"));
    ("is_active"%string, VBool true)] in
  try_except
    (inserted_id <- insert_one user_document ;;
     ret (UserResponse.Build
            (py_str inserted_id)
            (PromoterSignup.email user)
            (getstr user_document "user_type")
            (lit "Promoter registered successfully!")))
    (fun e => raise (registration_failed e)).

End Endpoints.

(** The body of [GET /users/count]. *)
Record UsersCount := {
  total_users : nat;
  admins : nat;
  students : nat;
  schools_colleges : nat;
  promoters : nat
}.

(** [GET /users/count] *)
Definition get_users_count : M UsersCount :=
  try_except
    (total_users <- count_documents [] ;;
     admins <- count_documents [("user_type"%string, VStr (lit "admin"))] ;;
     students <- count_documents [("user_type"%string, VStr (lit "student"))] ;;
     schools <- count_documents [("user_type"%string, VStr (lit "school/college"))] ;;
     promoters <- count_documents [("user_type"%string, VStr (lit "promoter"))] ;;
     ret (Build_UsersCount total_users admins students schools promoters))
    (fun e => raise (HTTPException HTTP_500_INTERNAL_SERVER_ERROR
                       (lit "Failed to fetch user count: " ++ exn_str e))).

(** [for user in users: user['_id'] = str(user['_id'])] *)
Fixpoint stringify_ids (users : list document) : M (list document) :=
  match users with
  | [] => ret []
  | user :: rest =>
      oid <- getitem user "_id" ;;
      let user' := <["_id"%string := VStr (py_str oid)]> user in
      rest' <- stringify_ids rest ;;
      ret (user' :: rest')
  end.

(** The body of [GET /users/all]. *)
Record AllUsers := {
  all_total_users : nat;
  users : list document
}.

(** [GET /users/all] *)
Definition get_all_users : M AllUsers :=
  try_except
    (users <- find [] ["password"%string] ;;
     users <- stringify_ids users ;;
     ret (Build_AllUsers (length users) users))
    (fun e => raise (HTTPException HTTP_500_INTERNAL_SERVER_ERROR
                       (lit "Failed to fetch users: " ++ exn_str e))).

(** [GET /]: the welcome message and the endpoint index. *)
Definition root : M (pystr * list (string * pystr)) :=
  ret (lit "Welcome to User Registration API",
       [("admin_signup"%string, lit "/signup/admin");
        ("student_signup"%string, lit "/signup/student");
        ("school_college_signup"%string, lit "/signup/school_college");
        ("promoter_signup"%string, lit "/signup/promoter");
        ("users_count"%string, lit "/users/count");
        ("all_users"%string, lit "/users/all")]).

(** ** The application (FastAPI)

    A request body is validated against the schema of the route before
    the handler runs; an [HTTPException] becomes a response with its
    status and detail; any other exception escaping a handler becomes a
    plain 500 response. *)

Inductive request :=
| GET_root
| POST_signup_admin (body : document)
| POST_signup_student (body : document)
| POST_signup_school_college (body : document)
| POST_signup_promoter (body : document)
| GET_users_count
| GET_users_all.

Inductive content :=
| Welcome (message : pystr) (endpoints : list (string * pystr))
| User (r : UserResponse.t)
| Count (c : UsersCount)
| All (a : AllUsers).

Inductive response :=
| Response (status_code : N) (body : content)
| HTTPError (status_code : N) (detail : pystr)
| RequestValidationError (errors : Pydantic.errors)
| InternalServerError.


Definition respond {A} (status_code : N) (wrap : A -> content) (handler : M A)
    : world -> response * world :=
  fun w =>
    match handler w with
    | (Return a, w') => (Response status_code (wrap a), w')
    | (Raise (HTTPException s detail), w') => (HTTPError s detail, w')
    | (Raise _, w') => (InternalServerError, w')
    end.

Definition with_body {A B} (parsed : Pydantic.errors + A) (status_code : N)
    (wrap : B -> content) (handler : A -> M B) : world -> response * world :=
  match parsed with
  | inl errs => fun w => (RequestValidationError errs, w)
  | inr user => respond status_code wrap (handler user)
  end.

(** A validated signup of any role, as the router hands it to its
    handler. *)
Inductive signup :=
| Admin (user : AdminSignup.t)
| Student (user : StudentSignup.t)
| SchoolCollege (user : SchoolCollegeSignup.t)
| Promoter (user : PromoterSignup.t).

Definition signup_email (s : signup) : pystr :=
  match s with
  | Admin u => AdminSignup.email u
  | Student u => StudentSignup.email u
  | SchoolCollege u => SchoolCollegeSignup.email u
  | Promoter u => PromoterSignup.email u
  end.

Definition signup_password (s : signup) : pystr :=
  match s with
  | Admin u => AdminSignup.password u
  | Student u => StudentSignup.password u
  | SchoolCollege u => SchoolCollegeSignup.password u
  | Promoter u => PromoterSignup.password u
  end.

Definition signup_phone (s : signup) : option pystr :=
  match s with
  | Admin u => Some (AdminSignup.phone u)
  | Student u => StudentSignup.phone u
  | SchoolCollege u => Some (SchoolCollegeSignup.phone u)
  | Promoter u => Some (PromoterSignup.phone u)
  end.

(** The [user_type] literal each handler writes. *)
Definition role_literal (s : signup) : pystr :=
  match s with
  | Admin _ => lit "admin"
  | Student _ => lit "student"
  | SchoolCollege _ => lit "school/college"
  | Promoter _ => lit "promoter"
  end.

(** The admin-code gate, which only the admin handler has. *)
Definition code_accepted (s : signup) : bool :=
  match s with
  | Admin u => bool_decide (AdminSignup.admin_code u = ADMIN_SECRET_CODE)
  | _ => true
  end.

Section Application.
Context `{CryptContext} `{Pydantic.EmailValidator}.

Definition register (s : signup) : M UserResponse.t :=
  match s with
  | Admin u => admin_signup u
  | Student u => student_signup u
  | SchoolCollege u => school_college_signup u
  | Promoter u => promoter_signup u
  end.

Definition app (r : request) : world -> response * world :=
  match r with
  | GET_root => respond 200 (fun x => Welcome (fst x) (snd x)) root
  | POST_signup_admin body =>
      with_body (AdminSignup.validate body) HTTP_201_CREATED User admin_signup
  | POST_signup_student body =>
      with_body (StudentSignup.validate body) HTTP_201_CREATED User student_signup
  | POST_signup_school_college body =>
      with_body (SchoolCollegeSignup.validate body) HTTP_201_CREATED User
        school_college_signup
  | POST_signup_promoter body =>
      with_body (PromoterSignup.validate body) HTTP_201_CREATED User promoter_signup
  | GET_users_count => respond 200 Count get_users_count
  | GET_users_all => respond 200 All get_all_users
  end.

(** The schema a signup route validates its body against. *)
Definition parse (r : request) : option (Pydantic.errors + signup) :=
  match r with
  | POST_signup_admin body =>
      Some (match AdminSignup.validate body with inl e => inl e | inr u => inr (Admin u) end)
  | POST_signup_student body =>
      Some (match StudentSignup.validate body with inl e => inl e | inr u => inr (Student u) end)
  | POST_signup_school_college body =>
      Some (match SchoolCollegeSignup.validate body with
            | inl e => inl e | inr u => inr (SchoolCollege u) end)
  | POST_signup_promoter body =>
      Some (match PromoterSignup.validate body with inl e => inl e | inr u => inr (Promoter u) end)
  | _ => None
  end.

End Application.

(** ** Sample data

    Worlds and payloads on which the endpoints are run in examples.  The
    hasher of the samples is a transparent stand-in for bcrypt that puts
    the salt in front of the secret; no general statement depends on
    it. *)

Module Sample.

Definition ctx : CryptContext :=
  {| ctx_hash salt secret := salt :: secret;
     ctx_verify secret h := bool_decide (tail h = secret) |}.

Definition emails : Pydantic.EmailValidator :=
  {| Pydantic.validate_email s := inr s |}.

(** An empty collection, a working driver. *)
Definition empty : world := World [] 1 [] (fun n => N.of_nat n) 0 [].

Definition admin : AdminSignup.t :=
  AdminSignup.Build (lit "admin@example.com") (lit "admin12345")
    (lit "+92 12345678910") (lit "Admin User") (lit "ADMIN2024SECRET").

Definition student : StudentSignup.t :=
  StudentSignup.Build (lit "student@example.com") (lit "student123")
    (Some (lit "+92 12345678911")) (lit "Ahmed Ali") (lit "ABC School").

Definition school : SchoolCollegeSignup.t :=
  SchoolCollegeSignup.Build (lit "school@example.com") (lit "school123")
    (lit "+92 12345678912") (lit "XYZ College") (lit "Karachi, Pakistan")
    (Some (lit "Dr. Principal Name")).

Definition promoter : PromoterSignup.t :=
  PromoterSignup.Build (lit "promoter@example.com") (lit "promoter123")
    (lit "+92 12345678913") (lit "Promoter Name").

(** Two students who give no phone number. *)
Definition ali : StudentSignup.t :=
  StudentSignup.Build (lit "ali@example.com") (lit "student123")
    None (lit "Ahmed Ali") (lit "ABC School").

Definition sara : StudentSignup.t :=
  StudentSignup.Build (lit "sara@example.com") (lit "student456")
    None (lit "Sara Khan") (lit "ABC School").

(** A body for [POST /signup/admin] with the secret in lower case. *)
Definition intruder : AdminSignup.t :=
  AdminSignup.Build (lit "intruder@example.com") (lit "intruder123")
    (lit "+92 12345678919") (lit "Intruder") (lit "admin2024secret").

Definition intruder_body : document :=
  dict [("email"%string, VStr (lit "intruder@example.com"));
        ("password"%string, VStr (lit "intruder123"));
        ("phone"%string, VStr (lit "+92 12345678919"));
        ("name"%string, VStr (lit "Intruder"));
        ("admin_code"%string, VStr (lit "admin2024secret"))].

(** A promoter body with the given password. *)
Definition promoter_body (password : pystr) : document :=
  dict [("email"%string, VStr (lit "promoter@example.com"));
        ("password"%string, VStr password);
        ("phone"%string, VStr (lit "+92 12345678913"));
        ("name"%string, VStr (lit "Promoter Name"))].

(** A collection holding one document written by another program, with
    its credential under [password_hash]. *)
Definition legacy : world :=
  World [dict [("_id"%string, VOid 7);
               ("email"%string, VStr (lit "old@example.com"));
               ("password_hash"%string, VStr (lit "$2b$12$legacy"));
               ("user_type"%string, VStr (lit "student"))]]
        8 [] (fun n => N.of_nat n) 0 [].

(** The body that validates to [admin]. *)
Definition admin_body : document :=
  dict [("email"%string, VStr (lit "admin@example.com"));
        ("password"%string, VStr (lit "admin12345"));
        ("phone"%string, VStr (lit "+92 12345678910"));
        ("name"%string, VStr (lit "Admin User"));
        ("admin_code"%string, VStr (lit "ADMIN2024SECRET"))].

(** The empty collection with a driver that fails at its [i]-th
    operation. *)
Definition failing (i : nat) : world :=
  World [] 1 (repeat None i ++ [Some (lit "connection refused")])
        (fun n => N.of_nat n) 0 [].

End Sample.

(** The body of a request, for the routes that take one. *)
Definition request_body (r : request) : option document :=
  match r with
  | POST_signup_admin body | POST_signup_student body
  | POST_signup_school_college body | POST_signup_promoter body => Some body
  | _ => None
  end.

(** The [user_type] literal of the route's handler. *)
Definition route_literal (r : request) : option pystr :=
  match r with
  | POST_signup_admin _ => Some (lit "admin")
  | POST_signup_student _ => Some (lit "student")
  | POST_signup_school_college _ => Some (lit "school/college")
  | POST_signup_promoter _ => Some (lit "promoter")
  | _ => None
  end.

(** ** What a signup does, step by step

    The four handlers share one shape; the definitions below name its
    parts for a validated signup of any role, and [signup_run] lists the
    ways a handler can end. *)

Definition email_query (s : signup) : query :=
  [("email"%string, VStr (signup_email s))].

Definition phone_query (s : signup) : query :=
  [("phone"%string, opt_str (signup_phone s))].

Definition signup_head (s : signup) : option pystr :=
  match s with
  | SchoolCollege u => SchoolCollegeSignup.head_of_institute u
  | _ => None
  end.

Definition success_message (s : signup) : pystr :=
  match s with
  | Admin _ => lit "Admin registered successfully!"
  | Student _ => lit "Student registered successfully!"
  | SchoolCollege _ => lit "School/College registered successfully!"
  | Promoter _ => lit "Promoter registered successfully!"
  end.

(** The [user_document] a handler builds, given the password hash. *)
Definition document_of (s : signup) (hashed : pystr) : document :=
  match s with
  | Admin user =>
      dict [("email"%string, VStr (AdminSignup.email user));
            ("password"%string, VStr hashed);
            ("phone"%string, VStr (AdminSignup.phone user));
            ("name"%string, VStr (AdminSignup.name user));
            ("user_type"%string, VStr (lit "admin"));
            ("is_active"%string, VBool true)]
  | Student user =>
      let user_document :=
        dict [("email"%string, VStr (StudentSignup.email user));
              ("password"%string, VStr hashed);
              ("name"%string, VStr (StudentSignup.name user));
              ("user_type"%string, VStr (lit "student"));
              ("is_active"%string, VBool true);
              ("institution_name"%string, VStr (StudentSignup.institution_name user))] in
      match StudentSignup.phone user with
      | Some phone => <["phone"%string := VStr phone]> user_document
      | None => user_document
      end
  | SchoolCollege user =>
      let user_document :=
        dict [("email"%string, VStr (SchoolCollegeSignup.email user));
              ("password"%string, VStr hashed);
              ("phone"%string, VStr (SchoolCollegeSignup.phone user));
              ("institute_name"%string, VStr (SchoolCollegeSignup.institute_name user));
              ("user_type"%string, VStr (lit "school/college"));
              ("is_active"%string, VBool true);
              ("address"%string, VStr (SchoolCollegeSignup.address user))] in
      match SchoolCollegeSignup.head_of_institute user with
      | Some head => <["head_of_institute"%string := VStr head]> user_document
      | None => user_document
      end
  | Promoter user =>
      dict [("email"%string, VStr (PromoterSignup.email user));
            ("password"%string, VStr hashed);
            ("phone"%string, VStr (PromoterSignup.phone user));
            ("name"%string, VStr (PromoterSignup.name user));
            ("user_type"%string, VStr (lit "promoter"));
            ("is_active"%string, VBool true)]
  end.

Definition forbidden : exn :=
  HTTPException HTTP_403_FORBIDDEN (lit "Invalid admin code. Access denied!").

(** The failure the driver reports for the [i]-th store operation from
    now, if any. *)
Definition fault_at (i : nat) (w : world) : option pystr := nth i (faults w) None.

(** The first document of the collection a filter selects. *)
Definition lookup_by (q : query) (w : world) : option document :=
  List.find (matches q) (coll w).

Section Runs.
Context `{CryptContext}.

(** The hash a signup stores: bcrypt, under the next salt, of the SHA-256
    hex digest of [bytes]. *)
Definition hash_from (w : world) (bytes : list N) : pystr :=
  ctx_hash (entropy w (drawn w)) (Sha256.hexdigest bytes).

Definition after_lookups (s : signup) (w : world) : world :=
  log_op (FindOne (phone_query s)) (log_op (FindOne (email_query s)) w).

Definition after_insert_attempt (s : signup) (w : world) (bytes : list N) : world :=
  log_op (InsertOne (document_of s (hash_from w bytes))) (draw (after_lookups s w)).

Definition stored_document (s : signup) (w : world) (bytes : list N) : document :=
  <["_id"%string := VOid (next_oid w)]> (document_of s (hash_from w bytes)).

Inductive signup_run (s : signup) (w : world) : outcome UserResponse.t -> world -> Prop :=
| run_forbidden :
    code_accepted s = false ->
    signup_run s w (Raise forbidden) w
| run_email_fault msg :
    code_accepted s = true ->
    fault_at 0 w = Some msg ->
    signup_run s w (Raise (PyMongoError msg)) (log_op (FindOne (email_query s)) w)
| run_email_taken :
    code_accepted s = true ->
    fault_at 0 w = None ->
    truthy (lookup_by (email_query s) w) = true ->
    signup_run s w (Raise email_taken) (log_op (FindOne (email_query s)) w)
| run_phone_fault msg :
    code_accepted s = true ->
    fault_at 0 w = None ->
    truthy (lookup_by (email_query s) w) = false ->
    fault_at 1 w = Some msg ->
    signup_run s w (Raise (PyMongoError msg)) (after_lookups s w)
| run_phone_taken :
    code_accepted s = true ->
    fault_at 0 w = None ->
    truthy (lookup_by (email_query s) w) = false ->
    fault_at 1 w = None ->
    truthy (lookup_by (phone_query s) w) = true ->
    signup_run s w (Raise phone_taken) (after_lookups s w)
| run_encode_error :
    code_accepted s = true ->
    fault_at 0 w = None ->
    truthy (lookup_by (email_query s) w) = false ->
    fault_at 1 w = None ->
    truthy (lookup_by (phone_query s) w) = false ->
    encode_utf8 (signup_password s) = None ->
    signup_run s w (Raise (UnicodeEncodeError (signup_password s))) (after_lookups s w)
| run_insert_fault bytes msg :
    code_accepted s = true ->
    fault_at 0 w = None ->
    truthy (lookup_by (email_query s) w) = false ->
    fault_at 1 w = None ->
    truthy (lookup_by (phone_query s) w) = false ->
    encode_utf8 (signup_password s) = Some bytes ->
    fault_at 2 w = Some msg ->
    signup_run s w (Raise (registration_failed (PyMongoError msg)))
      (after_insert_attempt s w bytes)
| run_created bytes :
    code_accepted s = true ->
    fault_at 0 w = None ->
    truthy (lookup_by (email_query s) w) = false ->
    fault_at 1 w = None ->
    truthy (lookup_by (phone_query s) w) = false ->
    encode_utf8 (signup_password s) = Some bytes ->
    fault_at 2 w = None ->
    signup_run s w
      (Return (UserResponse.Build (hex 24 (next_oid w)) (signup_email s)
                 (role_literal s) (success_message s)))
      (store (stored_document s w bytes) (next_oid w + 1)
         (after_insert_attempt s w bytes)).

(** The common shape of the four handlers. *)
Definition flow (s : signup) : M UserResponse.t :=
  raise_if (negb (code_accepted s)) forbidden ;;;
  existing_user <- find_one (email_query s) ;;
  raise_if (truthy existing_user) email_taken ;;;
  existing_user <- find_one (phone_query s) ;;
  raise_if (truthy existing_user) phone_taken ;;;
  hashed <- hash_password (signup_password s) ;;
  let user_document := document_of s hashed in
  try_except
    (inserted_id <- insert_one user_document ;;
     ret (UserResponse.Build
            (py_str inserted_id)
            (signup_email s)
            (getstr user_document "user_type")
            (success_message s)))
    (fun e => raise (registration_failed e)).

End Runs.

(** An operation that leaves the collection as it is, whatever its
    outcome. *)
Definition keeps_coll {A} (m : M A) : Prop :=
  forall w, coll (m w).2 = coll w.

(** ** Shapes and sets used in the statements *)

(** The text [+92], a space and eleven characters of class [\d]. *)
Definition phone_shape (s : pystr) : Prop :=
  exists digits,
    s = lit "+92 " ++ digits /\ length digits = 11%nat /\
    forallb Re.is_decimal digits = true.

(** The errors a validation reports, if any. *)
Definition errs_of {A} (x : Pydantic.errors + A) : Pydantic.errors :=
  match x with
  | inl e => e
  | inr _ => []
  end.

(** What [GET /users/all] shows of a stored document. *)
Definition listed (d : document) : document :=
  <["_id"%string := VStr (py_str (default VNull (d !! "_id"%string)))]>
    (delete "password"%string d).



(** ** Batches, counts and the hasher's contract *)

(** Validated signups served one after the other; the world after the
    last. *)
Fixpoint register_all `{CryptContext} (l : list signup) (w : world) : world :=
  match l with
  | [] => w
  | s :: l' => register_all l' (register s w).2
  end.

(** The documents of a given [user_type]. *)
Definition of_type (l : pystr) (docs : list document) : list document :=
  List.filter (matches [("user_type"%string, VStr l)]) docs.

(** The body [GET /users/count] computes from a collection. *)
Definition counts (docs : list document) : UsersCount :=
  Build_UsersCount (length docs)
    (length (of_type (lit "admin") docs))
    (length (of_type (lit "student") docs))
    (length (of_type (lit "school/college") docs))
    (length (of_type (lit "promoter") docs)).

(** A stored document that the signup [s] produced. *)
Definition document_from (s : signup) (d : document) : Prop :=
  exists hashed oid, d = <["_id"%string := VOid oid]> (document_of s hashed).



(** A character of a lower-case hexadecimal numeral. *)
Definition is_hex (c : codepoint) : bool :=
  ((48 <=? c) && (c <=? 57)) || ((97 <=? c) && (c <=? 102)).

Definition pystr_eq_dec (x y : pystr) : {x = y} + {x <> y} := decide (x = y).

(** ** What the schemas guarantee *)

(** A string field of a body. *)
Definition has_str (body : document) (k : string) (s : pystr) : Prop :=
  body !! k = Some (VStr s).

(** An optional string field of a body: absent or null, or a string. *)
Definition has_opt_str (body : document) (k : string) (o : option pystr) : Prop :=
  match o with
  | Some s => body !! k = Some (VStr s)
  | None => body !! k = None \/ body !! k = Some VNull
  end.

(** A well-formed text of [lo] to [hi] characters ([hi] may be absent). *)
Definition sized (lo : nat) (hi : option nat) (s : pystr) : Prop :=
  forallb is_scalar s = true /\ (lo <= len s)%nat /\
  match hi with
  | Some n => (len s <= n)%nat
  | None => True
  end.

(** The fields of a signup that the handlers never look at, by role. *)
Definition well_formed_signup (body : document) (s : signup) : Prop :=
  has_str body "password" (signup_password s) /\
  sized 8 (Some 72%nat) (signup_password s) /\
  match s with
  | Admin u =>
      has_str body "phone" (AdminSignup.phone u) /\ phone_shape (AdminSignup.phone u) /\
      has_str body "name" (AdminSignup.name u) /\
      sized 2 (Some 100%nat) (AdminSignup.name u) /\
      has_str body "admin_code" (AdminSignup.admin_code u)
  | Student u =>
      has_opt_str body "phone" (StudentSignup.phone u) /\
      (forall p, StudentSignup.phone u = Some p -> phone_shape p) /\
      has_str body "name" (StudentSignup.name u) /\
      sized 2 (Some 100%nat) (StudentSignup.name u) /\
      has_str body "institution_name" (StudentSignup.institution_name u) /\
      sized 2 None (StudentSignup.institution_name u)
  | SchoolCollege u =>
      has_str body "phone" (SchoolCollegeSignup.phone u) /\
      phone_shape (SchoolCollegeSignup.phone u) /\
      has_str body "institute_name" (SchoolCollegeSignup.institute_name u) /\
      sized 2 (Some 200%nat) (SchoolCollegeSignup.institute_name u) /\
      has_str body "address" (SchoolCollegeSignup.address u) /\
      sized 5 None (SchoolCollegeSignup.address u) /\
      has_opt_str body "head_of_institute" (SchoolCollegeSignup.head_of_institute u)
  | Promoter u =>
      has_str body "phone" (PromoterSignup.phone u) /\ phone_shape (PromoterSignup.phone u) /\
      has_str body "name" (PromoterSignup.name u) /\
      sized 2 (Some 100%nat) (PromoterSignup.name u)
  end.

(** ** Invariants of the collection *)

(** The values found under a key, document by document. *)
Definition column (k : string) (docs : list document) : list value :=
  omap (fun d : document => d !! k) docs.

(** A document whose [user_type] is one of the four literals. *)
Definition typed (d : document) : Prop :=
  exists l,
    d !! "user_type"%string = Some (VStr l) /\
    l ∈ [lit "admin"; lit "student"; lit "school/college"; lit "promoter"].

(** The world after a sequence of requests. *)
Fixpoint serve `{CryptContext} `{Pydantic.EmailValidator}
    (rs : list request) (w : world) : world :=
  match rs with
  | [] => w
  | r :: rs' => serve rs' (app r w).2
  end.


(** What every record the service writes looks like. *)
Definition well_shaped (d : document) : Prop :=
  is_Some (d !! "_id"%string) /\
  is_Some (d !! "email"%string) /\
  is_Some (d !! "password"%string) /\
  d !! "password_hash"%string = None /\
  typed d /\
  d !! "is_active"%string = Some (VBool true).

(** * Properties *)

Section RunLemmas.
Context `{CryptContext}.

Lemma bind_unfold {A B} (m : M A) (k : A -> M B) (w : world) :
  bind m k w =
  match m w with
  | (Return a, w') => k a w'
  | (Raise e, w') => (Raise e, w')
  end.
Proof. reflexivity. Qed.

Lemma driver_run (o : op) (w : world) :
  driver o w =
  match fault_at 0 w with
  | Some msg => (Raise (PyMongoError msg), log_op o w)
  | None => (Return tt, log_op o w)
  end.
Proof.
  unfold driver, fault_at. destruct (faults w) as [|[msg|] fs]; reflexivity.
Qed.

Lemma find_one_run (q : query) (w : world) :
  find_one q w =
  match fault_at 0 w with
  | Some msg => (Raise (PyMongoError msg), log_op (FindOne q) w)
  | None => (Return (lookup_by q w), log_op (FindOne q) w)
  end.
Proof.
  unfold find_one. rewrite bind_unfold, driver_run.
  destruct (fault_at 0 w); reflexivity.
Qed.

Lemma insert_one_run (d : document) (w : world) :
  d !! "_id"%string = None ->
  insert_one d w =
  match fault_at 0 w with
  | Some msg => (Raise (PyMongoError msg), log_op (InsertOne d) w)
  | None =>
      (Return (VOid (next_oid w)),
       store (<["_id"%string := VOid (next_oid w)]> d) (next_oid w + 1)
         (log_op (InsertOne d) w))
  end.
Proof.
  intros Hid. unfold insert_one. rewrite bind_unfold, driver_run.
  destruct (fault_at 0 w); [reflexivity|]. rewrite Hid. reflexivity.
Qed.

Lemma fault_at_log (i : nat) (o : op) (w : world) :
  fault_at i (log_op o w) = fault_at (S i) w.
Proof.
  unfold fault_at. simpl. destruct (faults w) as [|f fs]; simpl; [|reflexivity].
  destruct i; reflexivity.
Qed.

Lemma fault_at_draw (i : nat) (w : world) : fault_at i (draw w) = fault_at i w.
Proof. reflexivity. Qed.

Lemma document_of_no_id (s : signup) (hashed : pystr) :
  document_of s hashed !! "_id"%string = None.
Proof.
  destruct s as [u|u|u|u]; simpl.
  - reflexivity.
  - destruct (StudentSignup.phone u); reflexivity.
  - destruct (SchoolCollegeSignup.head_of_institute u); reflexivity.
  - reflexivity.
Qed.

Lemma register_flow (s : signup) : register s = flow s.
Proof. destruct s as [u|u|u|u]; reflexivity. Qed.

Lemma getstr_user_type (s : signup) (hashed : pystr) :
  getstr (document_of s hashed) "user_type" = role_literal s.
Proof.
  destruct s as [u|u|u|u]; simpl.
  - reflexivity.
  - destruct (StudentSignup.phone u); reflexivity.
  - destruct (SchoolCollegeSignup.head_of_institute u); reflexivity.
  - reflexivity.
Qed.

Lemma hash_password_run (password : pystr) (w : world) :
  hash_password password w =
  match encode_utf8 password with
  | None => (Raise (UnicodeEncodeError password), w)
  | Some bytes => (Return (hash_from w bytes), draw w)
  end.
Proof. unfold hash_password. destruct (encode_utf8 password); reflexivity. Qed.

Lemma register_run (s : signup) (w : world) (o : outcome UserResponse.t) (w' : world) :
  register s w = (o, w') -> signup_run s w o w'.
Proof.
  rewrite register_flow. unfold flow.
  rewrite bind_unfold.
  destruct (code_accepted s) eqn:Hc; cbn [negb raise_if raise ret].
  2:{ intros [= <- <-]. apply run_forbidden. exact Hc. }
  rewrite bind_unfold, find_one_run.
  destruct (fault_at 0 w) as [msg|] eqn:F0.
  { intros [= <- <-]. apply run_email_fault; assumption. }
  rewrite bind_unfold.
  destruct (truthy (lookup_by (email_query s) w)) eqn:T0; cbn [raise_if raise ret].
  { intros [= <- <-]. apply run_email_taken; assumption. }
  rewrite bind_unfold, find_one_run, fault_at_log.
  destruct (fault_at 1 w) as [msg|] eqn:F1.
  { intros [= <- <-]. apply run_phone_fault; assumption. }
  rewrite bind_unfold.
  change (lookup_by (phone_query s) (log_op (FindOne (email_query s)) w))
    with (lookup_by (phone_query s) w).
  destruct (truthy (lookup_by (phone_query s) w)) eqn:T1; cbn [raise_if raise ret].
  { intros [= <- <-]. apply run_phone_taken; assumption. }
  rewrite bind_unfold, hash_password_run.
  destruct (encode_utf8 (signup_password s)) as [bytes|] eqn:E.
  2:{ intros [= <- <-]. apply run_encode_error; assumption. }
  cbv zeta. unfold try_except.
  rewrite bind_unfold, insert_one_run by apply document_of_no_id.
  rewrite fault_at_draw, !fault_at_log.
  destruct (fault_at 2 w) as [msg|] eqn:F2.
  { intros [= <- <-]. apply (run_insert_fault s w bytes msg); assumption. }
  cbn [ret py_str]. rewrite getstr_user_type.
  intros [= <- <-]. apply (run_created s w bytes); assumption.
Qed.

(** The cases of [signup_run] exclude one another, so each gives an
    equation for the handler. *)
Ltac run_cases E :=
  apply register_run in E; inversion E; subst; try congruence.

Lemma register_forbidden (s : signup) (w : world) :
  code_accepted s = false -> register s w = (Raise forbidden, w).
Proof.
  intros Hc. destruct (register s w) as [o w'] eqn:E. run_cases E.
Qed.

Lemma register_email_taken (s : signup) (w : world) :
  code_accepted s = true ->
  fault_at 0 w = None ->
  truthy (lookup_by (email_query s) w) = true ->
  register s w = (Raise email_taken, log_op (FindOne (email_query s)) w).
Proof.
  intros Hc F0 T0. destruct (register s w) as [o w'] eqn:E. run_cases E.
Qed.

Lemma register_phone_taken (s : signup) (w : world) :
  code_accepted s = true ->
  fault_at 0 w = None ->
  truthy (lookup_by (email_query s) w) = false ->
  fault_at 1 w = None ->
  truthy (lookup_by (phone_query s) w) = true ->
  register s w = (Raise phone_taken, after_lookups s w).
Proof.
  intros Hc F0 T0 F1 T1. destruct (register s w) as [o w'] eqn:E. run_cases E.
Qed.

Lemma register_insert_fault (s : signup) (w : world) (bytes : list N) (msg : pystr) :
  code_accepted s = true ->
  fault_at 0 w = None ->
  truthy (lookup_by (email_query s) w) = false ->
  fault_at 1 w = None ->
  truthy (lookup_by (phone_query s) w) = false ->
  encode_utf8 (signup_password s) = Some bytes ->
  fault_at 2 w = Some msg ->
  register s w =
    (Raise (registration_failed (PyMongoError msg)), after_insert_attempt s w bytes).
Proof.
  intros Hc F0 T0 F1 T1 Hb F2. destruct (register s w) as [o w'] eqn:E. run_cases E.
Qed.

Lemma register_created (s : signup) (w : world) (bytes : list N) :
  code_accepted s = true ->
  fault_at 0 w = None ->
  truthy (lookup_by (email_query s) w) = false ->
  fault_at 1 w = None ->
  truthy (lookup_by (phone_query s) w) = false ->
  encode_utf8 (signup_password s) = Some bytes ->
  fault_at 2 w = None ->
  register s w =
    (Return (UserResponse.Build (hex 24 (next_oid w)) (signup_email s)
               (role_literal s) (success_message s)),
     store (stored_document s w bytes) (next_oid w + 1)
       (after_insert_attempt s w bytes)).
Proof.
  intros Hc F0 T0 F1 T1 Hb F2. destruct (register s w) as [o w'] eqn:E. run_cases E.
Qed.

(** A handler that returns has gone through every step. *)
Lemma register_Return (s : signup) (w w' : world) (r : UserResponse.t) :
  register s w = (Return r, w') ->
  exists bytes,
    code_accepted s = true /\
    truthy (lookup_by (email_query s) w) = false /\
    truthy (lookup_by (phone_query s) w) = false /\
    encode_utf8 (signup_password s) = Some bytes /\
    r = UserResponse.Build (hex 24 (next_oid w)) (signup_email s)
          (role_literal s) (success_message s) /\
    w' = store (stored_document s w bytes) (next_oid w + 1)
           (after_insert_attempt s w bytes).
Proof.
  intros E. apply register_run in E. inversion E; subst.
  exists bytes. repeat split; assumption || reflexivity.
Qed.

(** A handler leaves the collection as it is or appends one document. *)
Lemma register_coll (s : signup) (w : world) :
  coll (register s w).2 = coll w \/
  exists bytes,
    encode_utf8 (signup_password s) = Some bytes /\
    coll (register s w).2 = coll w ++ [stored_document s w bytes].
Proof.
  destruct (register s w) as [o w'] eqn:E. apply register_run in E.
  inversion E; subst; simpl; auto.
  right. exists bytes. split; [assumption | reflexivity].
Qed.

End RunLemmas.

(** ** Operations that only read *)

Section ReadOnly.

Lemma keeps_ret {A} (a : A) : keeps_coll (ret a).
Proof. intros w. reflexivity. Qed.

Lemma keeps_raise {A} (e : exn) : keeps_coll (@raise A e).
Proof. intros w. reflexivity. Qed.

Lemma keeps_bind {A B} (m : M A) (k : A -> M B) :
  keeps_coll m -> (forall a, keeps_coll (k a)) -> keeps_coll (bind m k).
Proof.
  intros Hm Hk w. unfold bind. specialize (Hm w).
  destruct (m w) as [[a|e] w1]; simpl in *.
  - rewrite Hk. exact Hm.
  - exact Hm.
Qed.

Lemma keeps_try_except {A} (body : M A) (handler : exn -> M A) :
  keeps_coll body -> (forall e, keeps_coll (handler e)) ->
  keeps_coll (try_except body handler).
Proof.
  intros Hb Hh w. unfold try_except. specialize (Hb w).
  destruct (body w) as [[a|e] w1]; simpl in *.
  - exact Hb.
  - rewrite Hh. exact Hb.
Qed.

Lemma keeps_driver (o : op) : keeps_coll (driver o).
Proof. intros w. unfold driver. destruct (faults w) as [|[msg|] fs]; reflexivity. Qed.

Lemma keeps_find_one (q : query) : keeps_coll (find_one q).
Proof.
  apply keeps_bind; [apply keeps_driver | intros _ w; reflexivity].
Qed.

Lemma keeps_count_documents (q : query) : keeps_coll (count_documents q).
Proof.
  apply keeps_bind; [apply keeps_driver | intros _ w; reflexivity].
Qed.

Lemma keeps_find (q : query) (exclude : list string) : keeps_coll (find q exclude).
Proof.
  apply keeps_bind; [apply keeps_driver | intros _ w; reflexivity].
Qed.

Lemma keeps_getitem (d : document) (k : string) : keeps_coll (getitem d k).
Proof. unfold getitem. destruct (d !! k); [apply keeps_ret | apply keeps_raise]. Qed.

Lemma keeps_stringify_ids (us : list document) : keeps_coll (stringify_ids us).
Proof.
  induction us as [|u us IH]; simpl.
  - apply keeps_ret.
  - apply keeps_bind; [apply keeps_getitem|]. intros oid.
    apply keeps_bind; [exact IH|]. intros rest. apply keeps_ret.
Qed.

Lemma keeps_get_users_count : keeps_coll get_users_count.
Proof.
  unfold get_users_count.
  apply keeps_try_except; [|intros e; apply keeps_raise].
  repeat (apply keeps_bind; [apply keeps_count_documents | intros ?]).
  apply keeps_ret.
Qed.

Lemma keeps_get_all_users : keeps_coll get_all_users.
Proof.
  unfold get_all_users.
  apply keeps_try_except; [|intros e; apply keeps_raise].
  apply keeps_bind; [apply keeps_find | intros us].
  apply keeps_bind; [apply keeps_stringify_ids | intros us'].
  apply keeps_ret.
Qed.

Lemma respond_world {A} (status : N) (wrap : A -> content) (handler : M A) (w : world) :
  (respond status wrap handler w).2 = (handler w).2.
Proof.
  unfold respond. destruct (handler w) as [[a|[]] w']; reflexivity.
Qed.

End ReadOnly.

Section Documents.

Lemma document_of_email (s : signup) (hashed : pystr) :
  document_of s hashed !! "email"%string = Some (VStr (signup_email s)).
Proof.
  destruct s as [u|u|u|u]; simpl;
    [|destruct (StudentSignup.phone u)
     |destruct (SchoolCollegeSignup.head_of_institute u)|]; reflexivity.
Qed.

Lemma document_of_password (s : signup) (hashed : pystr) :
  document_of s hashed !! "password"%string = Some (VStr hashed).
Proof.
  destruct s as [u|u|u|u]; simpl;
    [|destruct (StudentSignup.phone u)
     |destruct (SchoolCollegeSignup.head_of_institute u)|]; reflexivity.
Qed.

Lemma document_of_password_hash (s : signup) (hashed : pystr) :
  document_of s hashed !! "password_hash"%string = None.
Proof.
  destruct s as [u|u|u|u]; simpl;
    [|destruct (StudentSignup.phone u)
     |destruct (SchoolCollegeSignup.head_of_institute u)|]; reflexivity.
Qed.

Lemma document_of_user_type (s : signup) (hashed : pystr) :
  document_of s hashed !! "user_type"%string = Some (VStr (role_literal s)).
Proof.
  destruct s as [u|u|u|u]; simpl;
    [|destruct (StudentSignup.phone u)
     |destruct (SchoolCollegeSignup.head_of_institute u)|]; reflexivity.
Qed.

Lemma document_of_is_active (s : signup) (hashed : pystr) :
  document_of s hashed !! "is_active"%string = Some (VBool true).
Proof.
  destruct s as [u|u|u|u]; simpl;
    [|destruct (StudentSignup.phone u)
     |destruct (SchoolCollegeSignup.head_of_institute u)|]; reflexivity.
Qed.

Lemma document_of_phone (s : signup) (hashed : pystr) :
  document_of s hashed !! "phone"%string = VStr <$> signup_phone s.
Proof.
  destruct s as [u|u|u|u]; simpl;
    [|destruct (StudentSignup.phone u)
     |destruct (SchoolCollegeSignup.head_of_institute u)|]; reflexivity.
Qed.

Lemma document_of_head (s : signup) (hashed : pystr) :
  document_of s hashed !! "head_of_institute"%string = VStr <$> signup_head s.
Proof.
  destruct s as [u|u|u|u]; simpl;
    [|destruct (StudentSignup.phone u)
     |destruct (SchoolCollegeSignup.head_of_institute u)|]; reflexivity.
Qed.

End Documents.

(** ** The application layer *)

Section App.
Context `{CryptContext} `{Pydantic.EmailValidator}.

Lemma app_invalid (r : request) (errs : Pydantic.errors) (w : world) :
  parse r = Some (inl errs) -> app r w = (RequestValidationError errs, w).
Proof.
  destruct r as [|body|body|body|body| |]; simpl; try discriminate.
  - destruct (AdminSignup.validate body); intros [= <-]; reflexivity.
  - destruct (StudentSignup.validate body); intros [= <-]; reflexivity.
  - destruct (SchoolCollegeSignup.validate body); intros [= <-]; reflexivity.
  - destruct (PromoterSignup.validate body); intros [= <-]; reflexivity.
Qed.

Lemma app_valid (r : request) (s : signup) (w : world) :
  parse r = Some (inr s) ->
  app r w = respond HTTP_201_CREATED User (register s) w
  /\ route_literal r = Some (role_literal s).
Proof.
  destruct r as [|body|body|body|body| |]; simpl; try discriminate.
  - destruct (AdminSignup.validate body); intros [= <-]; split; reflexivity.
  - destruct (StudentSignup.validate body); intros [= <-]; split; reflexivity.
  - destruct (SchoolCollegeSignup.validate body); intros [= <-]; split; reflexivity.
  - destruct (PromoterSignup.validate body); intros [= <-]; split; reflexivity.
Qed.

Lemma parse_get (r : request) :
  parse r = None -> r = GET_root \/ r = GET_users_count \/ r = GET_users_all.
Proof. destruct r; simpl; try discriminate; auto. Qed.

(** C4. An admin signup that passes validation but whose [admin_code]
    differs from [ADMIN_SECRET_CODE] is answered 403 with the detail
    "Invalid admin code. Access denied!"; the world is left exactly as it
    was: no store operation is performed and no record is created. *)
Theorem wrong_admin_code_is_forbidden
    (body : document) (user : AdminSignup.t) (w : world) :
  AdminSignup.validate body = inr user ->
  AdminSignup.admin_code user <> ADMIN_SECRET_CODE ->
  app (POST_signup_admin body) w =
    (HTTPError HTTP_403_FORBIDDEN (lit "Invalid admin code. Access denied!"), w).
Proof.
  intros Hv Hcode. simpl. rewrite Hv. unfold with_body, respond.
  change (admin_signup user) with (register (Admin user)).
  rewrite register_forbidden; [reflexivity|].
  simpl. apply bool_decide_eq_false. exact Hcode.
Qed.

(** C10. A signup handler leaves the collection as it is or appends one
    document.  The appended document holds the credential hash under
    [password] and has no [password_hash]; it holds [email], [user_type]
    and [is_active = true]; it holds [phone] and [head_of_institute]
    exactly when the caller gave a value for them. *)
Theorem inserted_document_shape (s : signup) (w : world) :
  coll (register s w).2 = coll w \/
  exists d bytes,
    coll (register s w).2 = coll w ++ [d] /\
    encode_utf8 (signup_password s) = Some bytes /\
    d !! "password"%string = Some (VStr (hash_from w bytes)) /\
    d !! "password_hash"%string = None /\
    d !! "email"%string = Some (VStr (signup_email s)) /\
    d !! "user_type"%string = Some (VStr (role_literal s)) /\
    d !! "is_active"%string = Some (VBool true) /\
    d !! "phone"%string = VStr <$> signup_phone s /\
    d !! "head_of_institute"%string = VStr <$> signup_head s.
Proof.
  destruct (register_coll s w) as [Hsame|(bytes & Hb & Hc)]; [left; exact Hsame|].
  right. exists (stored_document s w bytes), bytes.
  unfold stored_document.
  rewrite !lookup_insert_ne by discriminate.
  rewrite document_of_password, document_of_password_hash, document_of_email,
    document_of_user_type, document_of_is_active, document_of_phone, document_of_head.
  repeat split; assumption.
Qed.

(** C9 (as amended). Whatever the request, the documents already in the
    collection stay as they are, in place; a document the request adds
    has the [user_type] literal of its route, one of [admin], [student],
    [school/college] and [promoter]. *)
Theorem user_type_fixed_at_creation (r : request) (w : world) :
  exists new,
    coll (app r w).2 = coll w ++ new /\
    forall d, d ∈ new ->
      d !! "user_type"%string = VStr <$> route_literal r /\
      exists l, route_literal r = Some l /\
        l ∈ [lit "admin"; lit "student"; lit "school/college"; lit "promoter"].
Proof.
  destruct (parse r) as [[errs|s]|] eqn:Hp.
  - exists []. rewrite (app_invalid r errs w Hp). simpl.
    split; [symmetry; apply app_nil_r|]. intros d Hd. inversion Hd.
  - destruct (app_valid r s w Hp) as [-> Hl]. rewrite respond_world.
    destruct (register_coll s w) as [Hsame|(bytes & Hb & Hc)].
    + exists []. rewrite Hsame. split; [symmetry; apply app_nil_r|].
      intros d Hd. inversion Hd.
    + exists [stored_document s w bytes]. split; [exact Hc|].
      intros d Hd. apply list_elem_of_singleton in Hd. subst d.
      unfold stored_document. rewrite lookup_insert_ne by discriminate.
      rewrite document_of_user_type, Hl. split; [reflexivity|].
      exists (role_literal s). split; [reflexivity|].
      destruct s; simpl; set_solver.
  - exists []. split.
    + rewrite app_nil_r.
      destruct (parse_get r Hp) as [->|[->| ->]]; unfold app; rewrite respond_world.
      * reflexivity.
      * apply keeps_get_users_count.
      * apply keeps_get_all_users.
    + intros d Hd. inversion Hd.
Qed.

End App.

(** ** The handlers at sample requests *)

Lemma wrong_admin_code_is_forbidden_witness :
  @AdminSignup.validate Sample.emails Sample.intruder_body = inr Sample.intruder /\
  AdminSignup.admin_code Sample.intruder <> ADMIN_SECRET_CODE /\
  @app Sample.ctx Sample.emails (POST_signup_admin Sample.intruder_body) Sample.empty =
    (HTTPError HTTP_403_FORBIDDEN (lit "Invalid admin code. Access denied!"),
     Sample.empty).
Proof.
  assert (Hv : @AdminSignup.validate Sample.emails Sample.intruder_body
               = inr Sample.intruder) by (vm_compute; reflexivity).
  assert (Hc : AdminSignup.admin_code Sample.intruder <> ADMIN_SECRET_CODE)
    by (vm_compute; discriminate).
  split; [exact Hv|]. split; [exact Hc|].
  exact (@wrong_admin_code_is_forbidden Sample.ctx Sample.emails
           Sample.intruder_body Sample.intruder Sample.empty Hv Hc).
Defined.

(** C9, the claim as stated. On the empty collection the institution
    signup of the sample adds a document whose [user_type] is
    [school/college], which is none of [admin], [student],
    [school_college] and [promoter].  (The hasher plays no part.) *)
Lemma school_college_literal_counterexample :
  (fun d : document => d !! "user_type"%string)
    <$> coll (@school_college_signup Sample.ctx Sample.school Sample.empty).2
  = [Some (VStr (lit "school/college"))] /\
  ~ lit "school/college" ∈
      [lit "admin"; lit "student"; lit "school_college"; lit "promoter"].
Proof.
  split; [vm_compute; reflexivity|].
  rewrite !elem_of_cons, elem_of_nil.
  intros [Heq|[Heq|[Heq|[Heq|[]]]]]; vm_compute in Heq; discriminate Heq.
Qed.

(** C1, at the failing input. On the empty collection a student who
    gives no phone number is registered; the handler has looked up
    [{"phone": None}] all the same, and the stored document has no
    [phone] field.  A second student without a phone number, under another
    email, is then answered 400 "Phone number already registered!" and
    nothing is stored for him. *)
Theorem second_student_without_phone_is_refused `{CryptContext} :
  exists r w1 d,
    student_signup Sample.ali Sample.empty = (Return r, w1) /\
    coll w1 = [d] /\ d !! "phone"%string = None /\
    FindOne [("phone"%string, VNull)] ∈ oplog w1 /\
    student_signup Sample.sara w1 =
      (Raise phone_taken, after_lookups (Student Sample.sara) w1) /\
    coll (after_lookups (Student Sample.sara) w1) = [d].
Proof.
  destruct (encode_utf8 (signup_password (Student Sample.ali))) as [bytes|] eqn:Hb;
    [|vm_compute in Hb; discriminate Hb].
  change (student_signup Sample.ali) with (register (Student Sample.ali)).
  change (student_signup Sample.sara) with (register (Student Sample.sara)).
  rewrite (register_created (Student Sample.ali) Sample.empty bytes)
    by (assumption || reflexivity).
  eexists _, _, _. split; [reflexivity|].
  split; [reflexivity|].
  split; [reflexivity|].
  split; [simpl; set_solver|].
  split; [|reflexivity].
  apply register_phone_taken; reflexivity.
Qed.

Example sha256_empty :
  Sha256.hexdigest [] =
  lit "e3b0c44298fc1c149afbf4c8996fb92427ae41e4649b934ca495991b7852b855".
Proof. vm_compute. reflexivity. Qed.

Example sha256_abc :
  Sha256.hexdigest [97; 98; 99] =
  lit "ba7816bf8f01cfea414140de5dae2223b00361a396177a9cb410ff61f20015ad".
Proof. vm_compute. reflexivity. Qed.

Example sha256_two_blocks :
  option_map Sha256.hexdigest
    (encode_utf8 (lit "abcdbcdecdefdefgefghfghighijhijkijkljklmklmnlmnomnopnopq")) =
  Some (lit "248d6a61d20638b8e5c026930c3e6039a33ce45964ff2167f6ecedd419db06c1").
Proof. vm_compute. reflexivity. Qed.

(** ** The phone pattern *)

Section Phone.

Lemma eat_spec (n : nat) (a : Re.atom) (s s' : pystr) :
  Re.eat n a s = Some s' <->
  exists pre, s = pre ++ s' /\ length pre = n /\ forallb (Re.atom_matches a) pre = true.
Proof.
  revert s. induction n as [|n IH]; intros s; simpl.
  - split.
    + intros [= ->]. exists []. auto.
    + intros (pre & -> & Hlen & _). destruct pre; [reflexivity|discriminate].
  - destruct s as [|c s].
    + split; [discriminate|].
      intros (pre & Heq & Hlen & _). destruct pre; discriminate.
    + destruct (Re.atom_matches a c) eqn:Hc.
      * rewrite IH. split.
        -- intros (pre & -> & Hlen & Hall). exists (c :: pre). simpl.
           rewrite Hc, Hall, Hlen. auto.
        -- intros (pre & Heq & Hlen & Hall). destruct pre as [|c' pre]; [discriminate|].
           simpl in *. injection Heq as <- ->. injection Hlen as Hlen.
           apply andb_true_iff in Hall as [_ Hall]. exists pre. auto.
      * split; [discriminate|].
        intros (pre & Heq & Hlen & Hall). destruct pre as [|c' pre]; [discriminate|].
        simpl in *. injection Heq as <- ->.
        rewrite Hc in Hall. discriminate.
Qed.

(** A pattern that begins with [^] matches at position 0 only. *)
Lemma search_caret (r : Re.regex) (pos : nat) (s : pystr) :
  Re.search_from (Re.Caret :: r) (S pos) s = false.
Proof.
  revert pos. induction s as [|c s IH]; intros pos; simpl; [reflexivity|apply IH].
Qed.

Lemma search_anchored (r : Re.regex) (s : pystr) :
  Re.search_from (Re.Caret :: r) 0 s = Re.match_here Re.RustRegex (Re.Caret :: r) 0 s.
Proof.
  destruct s as [|c s].
  - change (Re.search_from (Re.Caret :: r) 0 [])
      with (Re.match_here Re.RustRegex (Re.Caret :: r) 0 [] || false).
    apply orb_false_r.
  - change (Re.search_from (Re.Caret :: r) 0 (c :: s))
      with (Re.match_here Re.RustRegex (Re.Caret :: r) 0 (c :: s)
            || Re.search_from (Re.Caret :: r) 1 s).
    rewrite search_caret. apply orb_false_r.
Qed.

Lemma match_phone (e : Re.engine) (s : pystr) :
  Re.match_here e phone_pattern 0 s = true <->
  exists digits rest,
    s = lit "+92 " ++ digits ++ rest /\ length digits = 11%nat /\
    forallb Re.is_decimal digits = true /\ Re.at_end e rest = true.
Proof.
  unfold phone_pattern.
  change (lit "+92 ") with [43; 57; 50; 32].
  generalize 11%nat as n. intros n.
  cbn [Re.match_here Nat.eqb andb].
  split.
  - destruct s as [|c1 [|c2 [|c3 [|c4 s]]]]; cbn [Re.eat Re.atom_matches];
      repeat match goal with
             | |- context [N.eqb ?c ?k] => destruct (N.eqb_spec c k); subst
             end; try discriminate.
    destruct (Re.eat n Re.ClassD s) as [rest|] eqn:He; [|discriminate].
    apply eat_spec in He as (digits & -> & Hlen & Hall).
    rewrite andb_true_r. intros Hend.
    exists digits, rest. auto.
  - intros (digits & rest & -> & Hlen & Hall & Hend).
    assert (He : Re.eat n Re.ClassD (digits ++ rest) = Some rest)
      by (apply eat_spec; exists digits; auto).
    simpl. rewrite He, Hend. reflexivity.
Qed.

Lemma rust_is_match_phone (s : pystr) :
  Re.rust_is_match phone_pattern s = true <-> phone_shape s.
Proof.
  unfold Re.rust_is_match, phone_shape.
  assert (Hs : Re.search_from phone_pattern 0 s
               = Re.match_here Re.RustRegex phone_pattern 0 s)
    by apply search_anchored.
  rewrite Hs, match_phone. split.
  - intros (digits & rest & -> & Hlen & Hall & Hend).
    destruct rest; [|discriminate]. rewrite app_nil_r. eauto.
  - intros (digits & -> & Hlen & Hall). exists digits, [].
    rewrite app_nil_r. auto.
Qed.

(** [re.match] also accepts the shape followed by one newline. *)
Lemma py_match_phone (s : pystr) :
  Re.py_match phone_pattern s = true <->
  phone_shape s \/ exists s0, s = s0 ++ [10] /\ phone_shape s0.
Proof.
  unfold Re.py_match. rewrite match_phone. unfold phone_shape. split.
  - intros (digits & rest & -> & Hlen & Hall & Hend).
    destruct rest as [|c [|c' rest]]; simpl in Hend; try discriminate.
    + left. rewrite app_nil_r. eauto.
    + destruct (N.eqb_spec c 10) as [->|Hne].
      * right. exists (lit "+92 " ++ digits). rewrite <- app_assoc. eauto.
      * destruct c as [|[p|p|]]; try discriminate; try destruct p as [p|p|];
          try discriminate; try destruct p as [p|p|]; try discriminate;
          try destruct p as [p|p|]; try discriminate; congruence.
    + destruct c as [|[p|p|]]; try discriminate; try destruct p as [p|p|];
        try discriminate; try destruct p as [p|p|]; try discriminate;
        try destruct p as [p|p|]; discriminate.
  - intros [(digits & -> & Hlen & Hall)|(s0 & -> & digits & -> & Hlen & Hall)].
    + exists digits, []. rewrite app_nil_r. auto.
    + exists digits, [10]. rewrite <- app_assoc. auto.
Qed.

End Phone.

Section PhoneField.



Lemma constrained_phone (s : pystr) :
  Pydantic.constrained_str None None (Some phone_pattern) (VStr s) =
  if forallb is_scalar s then
    if Re.rust_is_match phone_pattern s then inr s
    else inl (Pydantic.string_pattern_mismatch phone_pattern)
  else inl Pydantic.string_unicode.
Proof.
  unfold Pydantic.constrained_str, Pydantic.check_min_length,
    Pydantic.check_max_length, Pydantic.check_pattern.
  destruct (forallb is_scalar s); simpl; [|reflexivity].
  destruct (Re.rust_is_match phone_pattern s); reflexivity.
Qed.

(** The phone field on a string: the pattern decides alone. *)
Lemma phone_field_run (s : pystr) :
  AdminSignup.phone_field (VStr s) =
  if forallb is_scalar s then
    if Re.rust_is_match phone_pattern s then inr s
    else inl (Pydantic.string_pattern_mismatch phone_pattern)
  else inl Pydantic.string_unicode.
Proof.
  unfold AdminSignup.phone_field, Pydantic.after. rewrite constrained_phone.
  destruct (forallb is_scalar s); [|reflexivity].
  destruct (Re.rust_is_match phone_pattern s) eqn:Hr; [|reflexivity].
  assert (Hp : Re.py_match phone_pattern s = true)
    by (apply py_match_phone; left; apply rust_is_match_phone; exact Hr).
  unfold AdminSignup.validate_phone. rewrite Hp. reflexivity.
Qed.



End PhoneField.

(** ** Validation reports *)

Section Validation.
Context `{CryptContext} `{Pydantic.EmailValidator}.






(** A schema that reports an error does not produce a model. *)
Lemma parse_errs (r : request) (x : Pydantic.errors + signup) :
  parse r = Some x -> errs_of x <> [] -> x = inl (errs_of x).
Proof. intros _ Hne. destruct x as [e|s]; [reflexivity|contradiction]. Qed.





End Validation.



(** ** The listing *)

Section Listing.

Lemma find_run (q : query) (exclude : list string) (w : world) :
  find q exclude w =
  match fault_at 0 w with
  | Some msg => (Raise (PyMongoError msg), log_op (Find q exclude) w)
  | None =>
      (Return (map (fun d => foldr delete d exclude) (List.filter (matches q) (coll w))),
       log_op (Find q exclude) w)
  end.
Proof.
  unfold find. rewrite bind_unfold, driver_run.
  destruct (fault_at 0 w); reflexivity.
Qed.

Lemma filter_all (l : list document) : List.filter (matches []) l = l.
Proof. induction l as [|d l IH]; simpl; [reflexivity|]. rewrite IH. reflexivity. Qed.

Lemma stringify_ids_run (us : list document) (w : world) :
  Forall (fun d => is_Some (d !! "_id"%string)) us ->
  stringify_ids (map (fun d => foldr delete d ["password"%string]) us) w
  = (Return (map listed us), w).
Proof.
  induction 1 as [|d us [v Hd] Hus IH]; [reflexivity|].
  cbn [map stringify_ids].
  change (foldr delete d ["password"%string]) with (delete "password"%string d).
  rewrite bind_unfold. unfold getitem.
  rewrite lookup_delete_ne by discriminate. rewrite Hd. cbn [ret].
  rewrite bind_unfold, IH. unfold listed. rewrite Hd. reflexivity.
Qed.

Lemma listed_password (d : document) : listed d !! "password"%string = None.
Proof.
  unfold listed. rewrite lookup_insert_ne by discriminate. apply lookup_delete_eq.
Qed.

Lemma listed_other (d : document) (k : string) :
  k <> "_id"%string -> k <> "password"%string -> listed d !! k = d !! k.
Proof.
  intros H1 H2. unfold listed.
  rewrite lookup_insert_ne by congruence. apply lookup_delete_ne. congruence.
Qed.

Lemma get_all_users_run (w : world) :
  fault_at 0 w = None ->
  Forall (fun d : document => is_Some (d !! "_id"%string)) (coll w) ->
  get_all_users w =
    (Return (Build_AllUsers (length (coll w)) (map listed (coll w))),
     log_op (Find [] ["password"%string]) w).
Proof.
  intros F0 Hid. unfold get_all_users, try_except.
  rewrite bind_unfold, find_run, F0, filter_all.
  rewrite bind_unfold.
  rewrite (stringify_ids_run (coll w) (log_op (Find [] ["password"%string]) w) Hid).
  cbn [ret]. rewrite length_map. reflexivity.
Qed.

(** C7 (as amended). When the driver answers and every stored document
    has its [_id], the listing returns one record per document of the
    collection, in order: the document without [password] and with [_id]
    as text.  No returned record has a [password] field; a returned record
    has a [password_hash] field only if the stored document has one. *)
Theorem listing_hides_password (w : world) :
  fault_at 0 w = None ->
  Forall (fun d : document => is_Some (d !! "_id"%string)) (coll w) ->
  exists r,
    get_all_users w = (Return r, log_op (Find [] ["password"%string]) w) /\
    all_total_users r = length (coll w) /\
    users r = map listed (coll w) /\
    Forall (fun u : document => u !! "password"%string = None) (users r) /\
    (Forall (fun d : document => d !! "password_hash"%string = None) (coll w) ->
     Forall (fun u : document => u !! "password_hash"%string = None) (users r)).
Proof.
  intros F0 Hid.
  exists (Build_AllUsers (length (coll w)) (map listed (coll w))).
  split; [apply get_all_users_run; assumption|].
  cbn [all_total_users users]. repeat split.
  - apply Forall_forall. intros u Hu. apply list_elem_of_In in Hu.
    apply in_map_iff in Hu as (d & <- & _). apply listed_password.
  - intros Hno. apply Forall_forall. intros u Hu. apply list_elem_of_In in Hu.
    apply in_map_iff in Hu as (d & <- & Hd).
    rewrite listed_other by discriminate.
    rewrite Forall_forall in Hno. apply Hno. apply list_elem_of_In. exact Hd.
Qed.

Lemma listing_hides_password_witness :
  fault_at 0 Sample.legacy = None /\
  Forall (fun d : document => is_Some (d !! "_id"%string)) (coll Sample.legacy) /\
  exists r,
    get_all_users Sample.legacy
      = (Return r, log_op (Find [] ["password"%string]) Sample.legacy) /\
    all_total_users r = 1%nat /\
    Forall (fun u : document => u !! "password"%string = None) (users r).
Proof.
  assert (H1 : fault_at 0 Sample.legacy = None) by reflexivity.
  assert (H2 : Forall (fun d : document => is_Some (d !! "_id"%string))
                 (coll Sample.legacy)).
  { repeat constructor. exists (VOid 7). reflexivity. }
  split; [exact H1|]. split; [exact H2|].
  destruct (listing_hides_password Sample.legacy H1 H2) as (r & Hr & Ht & _ & Hp & _).
  exists r. split; [exact Hr|]. split; [exact Ht | exact Hp].
Defined.

(** C7, the claim as stated. The collection of [Sample.legacy] holds a
    document with a [password_hash] field; the listing returns it with
    that field. *)
Lemma listing_password_hash_counterexample :
  match (get_all_users Sample.legacy).1 with
  | Return r => (fun u : document => u !! "password_hash"%string) <$> users r
  | Raise _ => []
  end = [Some (VStr (lit "$2b$12$legacy"))].
Proof. vm_compute. reflexivity. Qed.

End Listing.

(** ** The credential hasher *)

Section Hasher.
Context `{CryptContext}.

Lemma length_hex (k : nat) (x : N) : length (hex k x) = k.
Proof. induction k as [|k IH]; simpl; [reflexivity|]. rewrite IH. reflexivity. Qed.

Lemma hex_digit_is_hex (d : N) : d < 16 -> is_hex (hex_digit d) = true.
Proof.
  intros Hd. unfold hex_digit, is_hex.
  destruct (N.ltb_spec d 10).
  - apply orb_true_iff. left. apply andb_true_iff.
    split; apply N.leb_le; lia.
  - apply orb_true_iff. right. apply andb_true_iff.
    split; apply N.leb_le; lia.
Qed.

Lemma hex_is_hex (k : nat) (x : N) : forallb is_hex (hex k x) = true.
Proof.
  induction k as [|k IH]; simpl; [reflexivity|].
  rewrite IH, andb_true_r. apply hex_digit_is_hex.
  change 15 with (N.ones 4). rewrite N.land_ones.
  apply N.mod_lt. discriminate.
Qed.

(** The digest is printed on 64 lower-case hexadecimal characters,
    whatever the message. *)
Lemma hexdigest_length (msg : list N) : len (Sha256.hexdigest msg) = 64%nat.
Proof.
  unfold Sha256.hexdigest, Sha256.digest_words, len. cbv zeta. cbn [map concat].
  rewrite !length_app, !length_hex. reflexivity.
Qed.

Lemma hexdigest_is_hex (msg : list N) : forallb is_hex (Sha256.hexdigest msg) = true.
Proof.
  unfold Sha256.hexdigest, Sha256.digest_words. cbv zeta. cbn [map concat].
  rewrite !forallb_app, !hex_is_hex. reflexivity.
Qed.


End Hasher.



(** ** The uniqueness gate *)

Section Gate.
Context `{CryptContext}.

Lemma matches_email (s : signup) (d : document) :
  matches (email_query s) d
  = bool_decide (d !! "email"%string = Some (VStr (signup_email s))).
Proof. unfold matches, email_query. simpl. apply andb_true_r. Qed.

(** A lookup whose filter only selects non-empty documents is true
    exactly when some document is selected. *)
Lemma truthy_find (p : document -> bool) (l : list document) :
  (forall d, p d = true -> d <> ∅) ->
  truthy (List.find p l) = existsb p l.
Proof.
  intros Hp. induction l as [|d l IH]; simpl; [reflexivity|].
  destruct (p d) eqn:Hd; simpl; [|exact IH].
  apply negb_true_iff, bool_decide_eq_false. apply Hp. exact Hd.
Qed.

Lemma email_match_nonempty (s : signup) (d : document) :
  matches (email_query s) d = true -> d <> ∅.
Proof.
  rewrite matches_email. intros Hm%bool_decide_eq_true ->.
  rewrite lookup_empty in Hm. discriminate.
Qed.

Lemma email_found (s : signup) (w : world) (d : document) :
  d ∈ coll w -> d !! "email"%string = Some (VStr (signup_email s)) ->
  truthy (lookup_by (email_query s) w) = true.
Proof.
  intros Hin Hd. unfold lookup_by.
  rewrite truthy_find by apply email_match_nonempty.
  apply existsb_exists. exists d. split; [apply list_elem_of_In; exact Hin|].
  rewrite matches_email. apply bool_decide_eq_true. exact Hd.
Qed.

Lemma email_absent (s : signup) (w : world) :
  truthy (lookup_by (email_query s) w) = false ->
  List.filter (matches (email_query s)) (coll w) = [].
Proof.
  unfold lookup_by. rewrite truthy_find by apply email_match_nonempty.
  induction (coll w) as [|d l IH]; simpl; [reflexivity|].
  intros Hex. apply orb_false_iff in Hex as [Hd Hl]. rewrite Hd. auto.
Qed.

(** The store operations of a signup are a prefix of: email lookup, phone
    lookup, insert. *)
Lemma register_oplog (s : signup) (w : world) :
  exists k d,
    oplog (register s w).2 =
    oplog w ++ take k [FindOne (email_query s); FindOne (phone_query s); InsertOne d].
Proof.
  destruct (register s w) as [o w'] eqn:E. apply register_run in E.
  inversion E; subst; cbn [snd].
  - exists 0%nat, ∅. simpl. symmetry. apply app_nil_r.
  - exists 1%nat, ∅. reflexivity.
  - exists 1%nat, ∅. reflexivity.
  - exists 2%nat, ∅. simpl. rewrite <- app_assoc. reflexivity.
  - exists 2%nat, ∅. simpl. rewrite <- app_assoc. reflexivity.
  - exists 2%nat, ∅. simpl. rewrite <- app_assoc. reflexivity.
  - exists 3%nat, (document_of s (hash_from w bytes)). simpl.
    rewrite <- !app_assoc. reflexivity.
  - exists 3%nat, (document_of s (hash_from w bytes)). simpl.
    rewrite <- !app_assoc. reflexivity.
Qed.

(** C5. In a signup of any role that reaches the uniqueness gate with
    the driver answering, if the collection holds a record with the
    email of the request, the handler raises 400 "Email already
    registered!" after the email lookup alone: there is no phone lookup
    and no insert, whatever the phone.  The store operations of any
    signup are a prefix of (email lookup, phone lookup, insert), so the
    email lookup always comes first.  If the record with that email was
    created by the registration just before, the collection afterwards
    still holds exactly one record with that email. *)
Theorem email_is_checked_first (s : signup) (w : world) (d : document) :
  code_accepted s = true ->
  fault_at 0 w = None ->
  d ∈ coll w ->
  d !! "email"%string = Some (VStr (signup_email s)) ->
  register s w = (Raise email_taken, log_op (FindOne (email_query s)) w) /\
  coll (register s w).2 = coll w /\
  (forall s' w', exists k d',
     oplog (register s' w').2 =
     oplog w' ++ take k [FindOne (email_query s'); FindOne (phone_query s');
                         InsertOne d']) /\
  (forall s0 w0 r0,
     register s0 w0 = (Return r0, w) -> signup_email s0 = signup_email s ->
     length (List.filter (matches (email_query s)) (coll (register s w).2)) = 1%nat).
Proof.
  intros Hc F0 Hin Hd.
  assert (E : register s w = (Raise email_taken, log_op (FindOne (email_query s)) w)).
  { apply register_email_taken; [assumption..|]. apply (email_found s w d); assumption. }
  split; [exact E|]. split; [rewrite E; reflexivity|].
  split; [intros s' w'; apply register_oplog|].
  intros s0 w0 r0 E0 Hsame. rewrite E. cbn [snd log_op coll].
  apply register_Return in E0 as (bytes & _ & T0 & _ & _ & _ & ->).
  cbn [store coll]. rewrite List.filter_app.
  assert (Hq : email_query s = email_query s0)
    by (unfold email_query; rewrite Hsame; reflexivity).
  rewrite Hq. change (coll (after_insert_attempt s0 w0 bytes)) with (coll w0).
  rewrite (email_absent s0 w0 T0). cbn [app List.filter].
  rewrite matches_email. unfold stored_document.
  rewrite lookup_insert_ne by discriminate. rewrite document_of_email.
  rewrite bool_decide_eq_true_2 by reflexivity. reflexivity.
Qed.

End Gate.

Lemma email_is_checked_first_witness :
  let w := (@register Sample.ctx (Student Sample.student) Sample.empty).2 in
  let d := hd ∅ (coll w) in
  let s := Admin (AdminSignup.Build (lit "student@example.com") (lit "admin12345")
                    (lit "+92 12345678911") (lit "Admin User") ADMIN_SECRET_CODE) in
  code_accepted s = true /\
  fault_at 0 w = None /\
  d ∈ coll w /\
  d !! "email"%string = Some (VStr (signup_email s)) /\
  (@register Sample.ctx s w).1 = Raise email_taken.
Proof.
  intros w d s.
  assert (H1 : code_accepted s = true) by reflexivity.
  assert (H2 : fault_at 0 w = None) by reflexivity.
  assert (H3 : d ∈ coll w).
  { replace (coll w) with [d] by (vm_compute; reflexivity). apply list_elem_of_here. }
  assert (H4 : d !! "email"%string = Some (VStr (signup_email s)))
    by (vm_compute; reflexivity).
  split; [exact H1|]. split; [exact H2|]. split; [exact H3|]. split; [exact H4|].
  destruct (@email_is_checked_first Sample.ctx s w d H1 H2 H3 H4) as [E _].
  rewrite E. reflexivity.
Defined.

(** ** Counting *)

Section Counting.
Context `{CryptContext}.

Lemma count_documents_run (q : query) (w : world) :
  count_documents q w =
  match fault_at 0 w with
  | Some msg => (Raise (PyMongoError msg), log_op (CountDocuments q) w)
  | None => (Return (length (List.filter (matches q) (coll w))),
             log_op (CountDocuments q) w)
  end.
Proof.
  unfold count_documents. rewrite bind_unfold, driver_run.
  destruct (fault_at 0 w); reflexivity.
Qed.

Lemma get_users_count_run (w : world) :
  (forall i, (i < 5)%nat -> fault_at i w = None) ->
  (get_users_count w).1 = Return (counts (coll w)).
Proof.
  intros Hf. unfold get_users_count, try_except.
  rewrite bind_unfold, count_documents_run, (Hf 0%nat) by lia.
  rewrite bind_unfold, count_documents_run, fault_at_log, (Hf 1%nat) by lia.
  rewrite bind_unfold, count_documents_run, !fault_at_log, (Hf 2%nat) by lia.
  rewrite bind_unfold, count_documents_run, !fault_at_log, (Hf 3%nat) by lia.
  rewrite bind_unfold, count_documents_run, !fault_at_log, (Hf 4%nat) by lia.
  cbn [ret fst log_op coll]. unfold counts, of_type. rewrite filter_all. reflexivity.
Qed.

Lemma fault_free (w : world) (i : nat) : faults w = [] -> fault_at i w = None.
Proof. intros Hf. unfold fault_at. rewrite Hf. destruct i; reflexivity. Qed.

Lemma from_email (s : signup) (d : document) :
  document_from s d -> d !! "email"%string = Some (VStr (signup_email s)).
Proof.
  intros (hashed & oid & ->). rewrite lookup_insert_ne by discriminate.
  apply document_of_email.
Qed.

Lemma from_phone (s : signup) (d : document) :
  document_from s d -> d !! "phone"%string = VStr <$> signup_phone s.
Proof.
  intros (hashed & oid & ->). rewrite lookup_insert_ne by discriminate.
  apply document_of_phone.
Qed.

Lemma from_user_type (s : signup) (d : document) :
  document_from s d -> d !! "user_type"%string = Some (VStr (role_literal s)).
Proof.
  intros (hashed & oid & ->). rewrite lookup_insert_ne by discriminate.
  apply document_of_user_type.
Qed.

Lemma matches_email_from (s s' : signup) (d : document) :
  document_from s' d -> matches (email_query s) d = true ->
  signup_email s' = signup_email s.
Proof.
  intros Hd. rewrite matches_email, (from_email s' d Hd).
  intros Hm%bool_decide_eq_true. congruence.
Qed.

Lemma matches_phone_from (s s' : signup) (d : document) :
  document_from s' d -> matches (phone_query s) d = true ->
  signup_phone s' = signup_phone s.
Proof.
  intros Hd. unfold matches, phone_query, field_matches. cbn [forallb fst snd].
  rewrite (from_phone s' d Hd), andb_true_r.
  destruct (signup_phone s) as [p|], (signup_phone s') as [p'|]; cbn [opt_str fmap option_fmap option_map];
    try discriminate; try reflexivity.
  intros Hm%bool_decide_eq_true. congruence.
Qed.

(** No document selected: the lookup finds nothing. *)
Lemma find_nothing (p : document -> bool) (done : list signup) (docs : list document) :
  Forall2 document_from done docs ->
  (forall s' d, s' ∈ done -> document_from s' d -> p d = false) ->
  List.find p docs = None.
Proof.
  induction 1 as [|s' d done docs Hd Hrest IH]; intros Hp; [reflexivity|].
  cbn [List.find]. rewrite (Hp s' d) by (assumption || apply list_elem_of_here).
  apply IH. intros s'' d' Hin. apply Hp. apply list_elem_of_further. exact Hin.
Qed.

(** A signup whose email and phone differ from those of the signups that
    made the collection is registered. *)
Lemma register_fresh (s : signup) (done : list signup) (w : world) (bytes : list N) :
  faults w = [] ->
  Forall2 document_from done (coll w) ->
  code_accepted s = true ->
  encode_utf8 (signup_password s) = Some bytes ->
  ~ signup_email s ∈ map signup_email done ->
  ~ signup_phone s ∈ map signup_phone done ->
  register s w =
    (Return (UserResponse.Build (hex 24 (next_oid w)) (signup_email s)
               (role_literal s) (success_message s)),
     store (stored_document s w bytes) (next_oid w + 1)
       (after_insert_attempt s w bytes)).
Proof.
  intros Hf Hdone Hc Hb He Hp.
  apply register_created; try assumption; try (apply fault_free; assumption).
  - unfold lookup_by. rewrite (find_nothing _ done); [reflexivity|assumption|].
    intros s' d Hin Hd. apply not_true_is_false. intros Hm.
    apply He. rewrite <- (matches_email_from s s' d Hd Hm).
    apply list_elem_of_fmap_2. exact Hin.
  - unfold lookup_by. rewrite (find_nothing _ done); [reflexivity|assumption|].
    intros s' d Hin Hd. apply not_true_is_false. intros Hm.
    apply Hp. rewrite <- (matches_phone_from s s' d Hd Hm).
    apply list_elem_of_fmap_2. exact Hin.
Qed.

Lemma register_all_distinct (l : list signup) :
  forall (done : list signup) (w : world),
    faults w = [] ->
    Forall2 document_from done (coll w) ->
    NoDup (map signup_email (done ++ l)) ->
    NoDup (map signup_phone (done ++ l)) ->
    Forall (fun s => code_accepted s = true
                     /\ is_Some (encode_utf8 (signup_password s))) l ->
    faults (register_all l w) = [] /\
    Forall2 document_from (done ++ l) (coll (register_all l w)).
Proof.
  induction l as [|s l IH]; intros done w Hf Hdone He Hp Hok.
  - rewrite app_nil_r. auto.
  - inversion Hok as [|? ? [Hc [bytes Hb]] Hok']; subst.
    cbn [register_all].
    rewrite (register_fresh s done w bytes); try assumption.
    + replace (done ++ s :: l) with ((done ++ [s]) ++ l) in *
        by (rewrite <- app_assoc; reflexivity).
      apply IH; try assumption.
      * cbn. rewrite Hf. reflexivity.
      * cbn [snd store coll]. apply Forall2_app; [exact Hdone|].
        constructor; [|constructor].
        exists (hash_from w bytes), (next_oid w). reflexivity.
    + rewrite map_app in He. apply NoDup_app in He as (_ & He & _).
      intros Hin. apply (He _ Hin). cbn [map]. apply list_elem_of_here.
    + rewrite map_app in Hp. apply NoDup_app in Hp as (_ & Hp & _).
      intros Hin. apply (Hp _ Hin). cbn [map]. apply list_elem_of_here.
Qed.

Lemma of_type_from (l : pystr) (done : list signup) (docs : list document) :
  Forall2 document_from done docs ->
  length (of_type l docs)
  = count_occ pystr_eq_dec (map role_literal done) l.
Proof.
  unfold of_type. induction 1 as [|s d done docs Hd Hrest IH]; [reflexivity|].
  cbn [List.filter map count_occ].
  unfold matches at 1, field_matches. cbn [forallb fst snd].
  rewrite (from_user_type s d Hd), andb_true_r.
  destruct (pystr_eq_dec (role_literal s) l) as [->|Hne].
  - rewrite bool_decide_eq_true_2 by reflexivity. cbn [length]. rewrite IH. reflexivity.
  - rewrite bool_decide_eq_false_2 by congruence. exact IH.
Qed.

(** C8. [GET /users/count] returns the number of documents and, for each
    of the four [user_type] literals, the number of documents of that
    type.  After one signup of each role, in any order, with distinct
    emails and phones, on an empty collection with the driver answering,
    it returns 4 and 1, 1, 1, 1. *)
Theorem one_of_each_role_counts (l : list signup) (w : world) :
  coll w = [] ->
  faults w = [] ->
  Permutation (map role_literal l)
    [lit "admin"; lit "student"; lit "school/college"; lit "promoter"] ->
  NoDup (map signup_email l) ->
  NoDup (map signup_phone l) ->
  Forall (fun s => code_accepted s = true
                   /\ is_Some (encode_utf8 (signup_password s))) l ->
  (get_users_count (register_all l w)).1 = Return (Build_UsersCount 4 1 1 1 1) /\
  (forall w', (forall i, (i < 5)%nat -> fault_at i w' = None) ->
              (get_users_count w').1 = Return (counts (coll w'))).
Proof.
  intros Hempty Hf Hperm He Hp Hok.
  split; [|exact get_users_count_run].
  destruct (register_all_distinct l [] w Hf) as [Hf' Hdocs]; try assumption.
  { rewrite Hempty. constructor. }
  change ([] ++ l) with l in Hdocs.
  rewrite get_users_count_run by (intros i _; apply fault_free; exact Hf').
  unfold counts.
  rewrite !(of_type_from _ l _ Hdocs).
  rewrite <- (Forall2_length _ _ _ Hdocs).
  rewrite <- (length_map role_literal l), (Permutation_length Hperm).
  rewrite (proj1 (Permutation_count_occ pystr_eq_dec _ _) Hperm (lit "admin")).
  rewrite (proj1 (Permutation_count_occ pystr_eq_dec _ _) Hperm (lit "student")).
  rewrite (proj1 (Permutation_count_occ pystr_eq_dec _ _) Hperm
             (lit "school/college")).
  rewrite (proj1 (Permutation_count_occ pystr_eq_dec _ _) Hperm (lit "promoter")).
  vm_compute. reflexivity.
Qed.

End Counting.

Lemma one_of_each_role_counts_witness :
  let l := [Promoter Sample.promoter; Admin Sample.admin;
            SchoolCollege Sample.school; Student Sample.student] in
  coll Sample.empty = [] /\
  faults Sample.empty = [] /\
  NoDup (map signup_email l) /\
  NoDup (map signup_phone l) /\
  (get_users_count (@register_all Sample.ctx l Sample.empty)).1
    = Return (Build_UsersCount 4 1 1 1 1).
Proof.
  intros l.
  assert (H1 : coll Sample.empty = []) by reflexivity.
  assert (H2 : faults Sample.empty = []) by reflexivity.
  assert (H3 : Permutation (map role_literal l)
                 [lit "admin"; lit "student"; lit "school/college"; lit "promoter"]).
  { apply (Permutation_count_occ pystr_eq_dec).
    intros x. cbn [l map role_literal count_occ].
    repeat destruct (pystr_eq_dec _ x); reflexivity. }
  assert (H4 : NoDup (map signup_email l))
    by (apply (bool_decide_unpack _); vm_compute; exact I).
  assert (H5 : NoDup (map signup_phone l))
    by (apply (bool_decide_unpack _); vm_compute; exact I).
  assert (H6 : Forall (fun s => code_accepted s = true
                                /\ is_Some (encode_utf8 (signup_password s))) l).
  { repeat constructor; vm_compute; eauto. }
  split; [exact H1|]. split; [exact H2|]. split; [exact H4|]. split; [exact H5|].
  exact (proj1 (@one_of_each_role_counts Sample.ctx l Sample.empty H1 H2 H3 H4 H5 H6)).
Defined.

(** ** Validated models *)

Section Models.
Context `{CryptContext} `{Pydantic.EmailValidator}.

Ltac conj_split := repeat match goal with |- _ /\ _ => split end.

Lemma field_inr {A B} (acc : Pydantic.errors + (A -> B)) (x : Pydantic.errors + A) (b : B) :
  Pydantic.field acc x = inr b -> exists f a, acc = inr f /\ x = inr a /\ b = f a.
Proof.
  destruct acc as [e|f], x as [e'|a]; simpl; try discriminate.
  intros [= <-]. eauto.
Qed.

Lemma required_inr {A} (body : document) (k : string)
    (f : value -> Pydantic.error_type + A) (a : A) :
  Pydantic.required body k f = inr a -> exists v, body !! k = Some v /\ f v = inr a.
Proof.
  unfold Pydantic.required. destruct (body !! k) as [v|]; [|discriminate].
  destruct (f v) eqn:Hf; [discriminate|]. intros [= <-]. eauto.
Qed.

Lemma with_default_inr {A} (body : document) (k : string) (a0 : A)
    (f : value -> Pydantic.error_type + A) (a : A) :
  Pydantic.with_default body k a0 f = inr a ->
  body !! k = None /\ a = a0 \/ exists v, body !! k = Some v /\ f v = inr a.
Proof.
  unfold Pydantic.with_default. destruct (body !! k) as [v|].
  - destruct (f v) eqn:Hf; [discriminate|]. intros [= <-]. eauto.
  - intros [= <-]. auto.
Qed.

Lemma constrained_inr (lo : nat) (hi : option nat) (pat : option Re.regex)
    (v : value) (s : pystr) :
  Pydantic.constrained_str (Some lo) hi pat v = inr s ->
  v = VStr s /\ sized lo hi s.
Proof.
  unfold Pydantic.constrained_str, Pydantic.check_min_length, Pydantic.check_max_length.
  destruct v as [| | |s'|]; try discriminate.
  destruct (forallb is_scalar s') eqn:Hsc; [|discriminate]. cbn [negb].
  destruct (Nat.ltb_spec (len s') lo); [discriminate|].
  destruct hi as [n|].
  - destruct (Nat.ltb_spec n (len s')); [discriminate|].
    destruct (Pydantic.check_pattern pat s'); [discriminate|].
    intros [= <-]. repeat split; assumption.
  - destruct (Pydantic.check_pattern pat s'); [discriminate|].
    intros [= <-]. repeat split; assumption.
Qed.

Lemma str_inr (v : value) (s : pystr) : Pydantic.str v = inr s -> v = VStr s.
Proof. destruct v; try discriminate. intros [= <-]. reflexivity. Qed.

Lemma phone_field_inr (v : value) (s : pystr) :
  AdminSignup.phone_field v = inr s -> v = VStr s /\ phone_shape s.
Proof.
  destruct v as [| | |s'|]; try discriminate.
  rewrite phone_field_run.
  destruct (forallb is_scalar s'); [|discriminate].
  destruct (Re.rust_is_match phone_pattern s') eqn:Hr; [|discriminate].
  intros [= <-]. split; [reflexivity|]. apply rust_is_match_phone. exact Hr.
Qed.

Lemma student_phone_field_inr (v : value) (o : option pystr) :
  StudentSignup.phone_field v = inr o ->
  match o with
  | Some s => v = VStr s /\ phone_shape s
  | None => v = VNull
  end.
Proof.
  unfold StudentSignup.phone_field, Pydantic.after, Pydantic.Optional.
  destruct v as [| | |s'|]; try discriminate.
  - simpl. intros [= <-]. reflexivity.
  - destruct (Pydantic.constrained_str _ _ _ _) as [e|s0] eqn:Hc; [discriminate|].
    assert (Hp : AdminSignup.phone_field (VStr s') = inr s0).
    { unfold AdminSignup.phone_field, Pydantic.after. rewrite Hc.
      unfold AdminSignup.validate_phone.
      rewrite constrained_phone in Hc.
      destruct (forallb is_scalar s'); [|discriminate].
      destruct (Re.rust_is_match phone_pattern s') eqn:Hr; [|discriminate].
      injection Hc as <-.
      assert (Hpy : Re.py_match phone_pattern s' = true)
        by (apply py_match_phone; left; apply rust_is_match_phone; exact Hr).
      rewrite Hpy. reflexivity. }
    apply phone_field_inr in Hp as [[= ->] Hshape].
    unfold StudentSignup.validate_phone.
    destruct (negb _); [discriminate|]. intros [= <-]. auto.
Qed.

Lemma optional_str_inr (v : value) (o : option pystr) :
  Pydantic.Optional Pydantic.str v = inr o ->
  match o with
  | Some s => v = VStr s
  | None => v = VNull
  end.
Proof.
  destruct v; simpl; try discriminate; intros [= <-]; reflexivity.
Qed.

Lemma admin_validated (body : document) (u : AdminSignup.t) :
  AdminSignup.validate body = inr u -> well_formed_signup body (Admin u).
Proof.
  intros Hv. unfold AdminSignup.validate in Hv.
  apply field_inr in Hv as (f5 & code & Hv & Hcode & ->).
  apply field_inr in Hv as (f4 & name & Hv & Hname & ->).
  apply field_inr in Hv as (f3 & phone & Hv & Hphone & ->).
  apply field_inr in Hv as (f2 & pw & Hv & Hpw & ->).
  apply field_inr in Hv as (f1 & email & [= <-] & Hemail & ->).
  apply required_inr in Hcode as (v5 & Hk5 & ->%str_inr).
  apply required_inr in Hname as (v4 & Hk4 & [-> Hn]%constrained_inr).
  apply required_inr in Hphone as (v3 & Hk3 & [-> Hph]%phone_field_inr).
  apply required_inr in Hpw as (v2 & Hk2 & [-> Hpw]%constrained_inr).
  unfold well_formed_signup, has_str; cbn. auto 10.
Qed.

Lemma student_validated (body : document) (u : StudentSignup.t) :
  StudentSignup.validate body = inr u -> well_formed_signup body (Student u).
Proof.
  intros Hv. unfold StudentSignup.validate in Hv.
  apply field_inr in Hv as (f5 & inst & Hv & Hinst & ->).
  apply field_inr in Hv as (f4 & name & Hv & Hname & ->).
  apply field_inr in Hv as (f3 & phone & Hv & Hphone & ->).
  apply field_inr in Hv as (f2 & pw & Hv & Hpw & ->).
  apply field_inr in Hv as (f1 & email & [= <-] & Hemail & ->).
  apply required_inr in Hinst as (v5 & Hk5 & [-> Hi]%constrained_inr).
  apply required_inr in Hname as (v4 & Hk4 & [-> Hn]%constrained_inr).
  apply required_inr in Hpw as (v2 & Hk2 & [-> Hpw]%constrained_inr).
  unfold well_formed_signup, has_str, has_opt_str; cbn.
  split; [exact Hk2|]. split; [exact Hpw|].
  apply with_default_inr in Hphone as [[Hnone ->]|(v3 & Hk3 & Hph)].
  + conj_split; auto; intros p [=].
  + apply student_phone_field_inr in Hph. destruct phone as [p|].
    * destruct Hph as [-> Hshape]. conj_split; auto. intros p' [= <-]. exact Hshape.
    * subst v3. conj_split; auto; intros p [=].
Qed.

Lemma school_college_validated (body : document) (u : SchoolCollegeSignup.t) :
  SchoolCollegeSignup.validate body = inr u -> well_formed_signup body (SchoolCollege u).
Proof.
  intros Hv. unfold SchoolCollegeSignup.validate in Hv.
  apply field_inr in Hv as (f6 & head & Hv & Hhead & ->).
  apply field_inr in Hv as (f5 & addr & Hv & Haddr & ->).
  apply field_inr in Hv as (f4 & name & Hv & Hname & ->).
  apply field_inr in Hv as (f3 & phone & Hv & Hphone & ->).
  apply field_inr in Hv as (f2 & pw & Hv & Hpw & ->).
  apply field_inr in Hv as (f1 & email & [= <-] & Hemail & ->).
  apply required_inr in Haddr as (v5 & Hk5 & [-> Ha]%constrained_inr).
  apply required_inr in Hname as (v4 & Hk4 & [-> Hn]%constrained_inr).
  apply required_inr in Hphone as (v3 & Hk3 & [-> Hph]%phone_field_inr).
  apply required_inr in Hpw as (v2 & Hk2 & [-> Hpw]%constrained_inr).
  unfold well_formed_signup, has_str, has_opt_str; cbn.
  repeat (split; [assumption|]).
  apply with_default_inr in Hhead as [[Hnone ->]|(v6 & Hk6 & Hh)]; [auto|].
  apply optional_str_inr in Hh. destruct head; subst v6; auto.
Qed.

Lemma promoter_validated (body : document) (u : PromoterSignup.t) :
  PromoterSignup.validate body = inr u -> well_formed_signup body (Promoter u).
Proof.
  intros Hv. unfold PromoterSignup.validate in Hv.
  apply field_inr in Hv as (f4 & name & Hv & Hname & ->).
  apply field_inr in Hv as (f3 & phone & Hv & Hphone & ->).
  apply field_inr in Hv as (f2 & pw & Hv & Hpw & ->).
  apply field_inr in Hv as (f1 & email & [= <-] & Hemail & ->).
  apply required_inr in Hname as (v4 & Hk4 & [-> Hn]%constrained_inr).
  apply required_inr in Hphone as (v3 & Hk3 & [-> Hph]%phone_field_inr).
  apply required_inr in Hpw as (v2 & Hk2 & [-> Hpw]%constrained_inr).
  unfold well_formed_signup, has_str; cbn. auto 10.
Qed.

Lemma parse_password_sized (r : request) (s : signup) :
  parse r = Some (inr s) -> sized 8 (Some 72%nat) (signup_password s).
Proof.
  intros Hp.
  destruct r as [|b|b|b|b| |]; cbn [parse] in Hp; try discriminate.
  - destruct (AdminSignup.validate b) as [e|u] eqn:Hv; [discriminate|].
    injection Hp as <-. apply (admin_validated b u Hv).
  - destruct (StudentSignup.validate b) as [e|u] eqn:Hv; [discriminate|].
    injection Hp as <-. apply (student_validated b u Hv).
  - destruct (SchoolCollegeSignup.validate b) as [e|u] eqn:Hv; [discriminate|].
    injection Hp as <-. apply (school_college_validated b u Hv).
  - destruct (PromoterSignup.validate b) as [e|u] eqn:Hv; [discriminate|].
    injection Hp as <-. apply (promoter_validated b u Hv).
Qed.

(** What a schema lets through comes from the body and meets the
    constraints of its fields. *)
Theorem validated_signup_is_well_formed (r : request) (body : document) (s : signup) :
  request_body r = Some body ->
  parse r = Some (inr s) ->
  well_formed_signup body s.
Proof.
  intros Hb Hp.
  destruct r as [|b|b|b|b| |]; simpl in Hb; try discriminate; injection Hb as ->;
    cbn [parse] in Hp.
  - destruct (AdminSignup.validate body) as [e|u] eqn:Hv; [discriminate|].
    injection Hp as <-. apply admin_validated. exact Hv.
  - destruct (StudentSignup.validate body) as [e|u] eqn:Hv; [discriminate|].
    injection Hp as <-. apply student_validated. exact Hv.
  - destruct (SchoolCollegeSignup.validate body) as [e|u] eqn:Hv; [discriminate|].
    injection Hp as <-. apply school_college_validated. exact Hv.
  - destruct (PromoterSignup.validate body) as [e|u] eqn:Hv; [discriminate|].
    injection Hp as <-. apply promoter_validated. exact Hv.
Qed.

End Models.

(** ** Outcomes of a signup request *)

Section Outcomes.
Context `{CryptContext} `{Pydantic.EmailValidator}.

Lemma scalar_encodable (s : pystr) :
  forallb is_scalar s = true -> exists bytes, encode_utf8 s = Some bytes.
Proof.
  induction s as [|c s IH]; simpl; [eauto|].
  intros [Hc Hs]%andb_true_iff. rewrite Hc.
  destruct (IH Hs) as [bytes ->]. eauto.
Qed.

Lemma validated_password_encodable (r : request) (s : signup) :
  parse r = Some (inr s) -> exists bytes, encode_utf8 (signup_password s) = Some bytes.
Proof.
  intros Hp.
  destruct (parse_password_sized r s Hp) as (Hsc & _).
  apply scalar_encodable. exact Hsc.
Qed.



(** A signup whose email is unused but whose phone a stored document has
    is answered 400 "Phone number already registered!" after the two
    lookups; nothing is stored. *)
Theorem used_phone_is_refused (s : signup) (p : pystr) (w : world) (d : document) :
  code_accepted s = true ->
  signup_phone s = Some p ->
  fault_at 0 w = None -> fault_at 1 w = None ->
  (forall d', d' ∈ coll w -> d' !! "email"%string <> Some (VStr (signup_email s))) ->
  d ∈ coll w -> d !! "phone"%string = Some (VStr p) ->
  register s w = (Raise phone_taken, after_lookups s w) /\
  coll (after_lookups s w) = coll w /\
  oplog (after_lookups s w)
    = oplog w ++ [FindOne (email_query s); FindOne (phone_query s)].
Proof.
  intros Hc Hphone F0 F1 Hemail Hin Hd.
  split; [|split; [reflexivity|cbn; rewrite <- app_assoc; reflexivity]].
  apply register_phone_taken; try assumption.
  - unfold lookup_by. rewrite truthy_find by apply email_match_nonempty.
    apply not_true_is_false. intros (d' & Hin' & Hm)%existsb_exists.
    rewrite matches_email in Hm. apply bool_decide_eq_true in Hm.
    apply (Hemail d'); [apply list_elem_of_In; exact Hin' | exact Hm].
  - unfold lookup_by, phone_query. rewrite Hphone. cbn [opt_str].
    rewrite truthy_find.
    + apply existsb_exists. exists d. split; [apply list_elem_of_In; exact Hin|].
      unfold matches, field_matches. cbn [forallb fst snd].
      rewrite andb_true_r. apply bool_decide_eq_true. exact Hd.
    + intros d' Hm ->. unfold matches, field_matches in Hm. cbn [forallb fst snd] in Hm.
      rewrite andb_true_r in Hm. apply bool_decide_eq_true in Hm.
      rewrite lookup_empty in Hm. discriminate.
Qed.

(** A failure of the insert is caught by the handler: the answer is 500
    with the detail "Registration failed: " followed by the driver's
    message, and nothing is stored. *)
Theorem insert_failure_is_reported (r : request) (s : signup) (w : world) (msg : pystr) :
  parse r = Some (inr s) ->
  code_accepted s = true ->
  fault_at 0 w = None -> fault_at 1 w = None -> fault_at 2 w = Some msg ->
  truthy (lookup_by (email_query s) w) = false ->
  truthy (lookup_by (phone_query s) w) = false ->
  (app r w).1 =
    HTTPError HTTP_500_INTERNAL_SERVER_ERROR (lit "Registration failed: " ++ msg) /\
  coll (app r w).2 = coll w.
Proof.
  intros Hp Hc F0 F1 F2 T0 T1.
  destruct (app_valid r s w Hp) as [-> _].
  destruct (validated_password_encodable r s Hp) as [bytes Hbytes].
  unfold respond.
  rewrite (register_insert_fault s w bytes msg) by assumption.
  split; reflexivity.
Qed.

(** A failure of a lookup is not caught by the handler: the answer is the
    plain 500 of the framework, and nothing is stored. *)
Theorem lookup_failure_is_not_caught (r : request) (s : signup) (w : world) (msg : pystr) :
  parse r = Some (inr s) ->
  code_accepted s = true ->
  fault_at 0 w = Some msg
  \/ (fault_at 0 w = None /\ truthy (lookup_by (email_query s) w) = false
      /\ fault_at 1 w = Some msg) ->
  (app r w).1 = InternalServerError /\ coll (app r w).2 = coll w.
Proof.
  intros Hp Hc Hfault.
  destruct (app_valid r s w Hp) as [-> _].
  unfold respond. destruct (register s w) as [o w'] eqn:E.
  apply register_run in E.
  destruct Hfault as [F0|(F0 & T0 & F1)];
    inversion E; subst; try congruence; split; reflexivity.
Qed.

End Outcomes.

(** ** Students without a phone number *)

Section Phoneless.
Context `{CryptContext}.

(** The lookup a phoneless student signup makes selects every document
    that has no phone: once the collection holds such a document (and no
    empty one in front of it), a student who gives no phone is answered
    400 "Phone number already registered!", whatever the email. *)
Theorem phoneless_student_is_refused
    (user : StudentSignup.t) (w : world) (d : document) :
  StudentSignup.phone user = None ->
  fault_at 0 w = None -> fault_at 1 w = None ->
  (forall d', d' ∈ coll w ->
     d' <> ∅ /\ d' !! "email"%string <> Some (VStr (StudentSignup.email user))) ->
  d ∈ coll w -> d !! "phone"%string = None ->
  student_signup user w = (Raise phone_taken, after_lookups (Student user) w) /\
  coll (after_lookups (Student user) w) = coll w.
Proof.
  intros Hnone F0 F1 Hdocs Hin Hd.
  split; [|reflexivity].
  change (student_signup user) with (register (Student user)).
  apply register_phone_taken; try assumption; try reflexivity.
  - unfold lookup_by. rewrite truthy_find by apply email_match_nonempty.
    apply not_true_is_false. intros (d' & Hin' & Hm)%existsb_exists.
    rewrite matches_email in Hm. apply bool_decide_eq_true in Hm.
    apply list_elem_of_In in Hin'. destruct (Hdocs d' Hin') as [_ Hne].
    apply Hne. exact Hm.
  - unfold lookup_by, phone_query. cbn [signup_phone]. rewrite Hnone. cbn [opt_str].
    destruct (List.find _ (coll w)) as [d'|] eqn:Hfind.
    + apply find_some in Hfind as [Hin' _]. apply list_elem_of_In in Hin'.
      destruct (Hdocs d' Hin') as [Hne _].
      cbn [truthy]. apply negb_true_iff, bool_decide_eq_false. exact Hne.
    + exfalso. apply list_elem_of_In in Hin.
      pose proof (List.find_none _ _ Hfind d Hin) as Hm.
      unfold matches, field_matches in Hm. cbn [forallb fst snd] in Hm.
      rewrite Hd in Hm. discriminate Hm.
Qed.

End Phoneless.

(** ** Invariants of the collection *)

Section Invariants.
Context `{CryptContext} `{Pydantic.EmailValidator}.

Lemma role_literal_known (s : signup) :
  role_literal s ∈ [lit "admin"; lit "student"; lit "school/college"; lit "promoter"].
Proof.
  destruct s; cbn [role_literal]; rewrite !elem_of_cons; auto.
Qed.

Lemma app_coll (r : request) (w : world) :
  coll (app r w).2 = coll w \/
  exists s bytes,
    parse r = Some (inr s) /\
    coll (app r w).2 = coll w ++ [stored_document s w bytes].
Proof.
  destruct (parse r) as [[errs|s]|] eqn:Hp.
  - left. rewrite (app_invalid r errs w Hp). reflexivity.
  - destruct (app_valid r s w Hp) as [-> _]. rewrite respond_world.
    destruct (register_coll s w) as [Hsame|(bytes & _ & Hc)]; [left; exact Hsame|].
    right. exists s, bytes. auto.
  - left. destruct (parse_get r Hp) as [->|[->| ->]]; unfold app; rewrite respond_world.
    + reflexivity.
    + apply keeps_get_users_count.
    + apply keeps_get_all_users.
Qed.

Lemma column_app (k : string) (l1 l2 : list document) :
  column k (l1 ++ l2) = column k l1 ++ column k l2.
Proof. unfold column. apply omap_app. Qed.

Lemma in_column (k : string) (v : value) (docs : list document) :
  v ∈ column k docs <-> exists d, d ∈ docs /\ d !! k = Some v.
Proof. unfold column. apply list_elem_of_omap. Qed.

Lemma NoDup_snoc (l : list value) (v : value) :
  NoDup l -> ~ v ∈ l -> NoDup (l ++ [v]).
Proof.
  intros Hl Hv. apply NoDup_app. split; [exact Hl|]. split.
  - intros x Hx Hx'. apply list_elem_of_singleton in Hx'. subst x. contradiction.
  - apply NoDup_singleton.
Qed.

(** New values of a column: none if the collection is kept, that of
    the stored document otherwise. *)
Lemma register_keeps_emails (s : signup) (w : world) :
  NoDup (column "email" (coll w)) ->
  NoDup (column "email" (coll (register s w).2)).
Proof.
  intros Hnd.
  destruct (register s w) as [o w'] eqn:E. apply register_run in E.
  inversion E; subst; try exact Hnd.
  cbn [snd store coll]. change (coll (after_insert_attempt s w bytes)) with (coll w).
  rewrite column_app. unfold column at 2. cbn [omap list_omap].
  unfold stored_document. rewrite lookup_insert_ne by discriminate.
  rewrite document_of_email. cbn [omap list_omap].
  apply NoDup_snoc; [exact Hnd|].
  intros (d & Hin & Hd)%in_column.
  assert (Ht : truthy (lookup_by (email_query s) w) = true)
    by (apply (email_found s w d); assumption).
  congruence.
Qed.

Lemma phone_found (s : signup) (p : pystr) (w : world) (d : document) :
  signup_phone s = Some p ->
  d ∈ coll w -> d !! "phone"%string = Some (VStr p) ->
  truthy (lookup_by (phone_query s) w) = true.
Proof.
  intros Hphone Hin Hd.
  unfold lookup_by, phone_query. rewrite Hphone. cbn [opt_str].
  rewrite truthy_find.
  - apply existsb_exists. exists d. split; [apply list_elem_of_In; exact Hin|].
    unfold matches, field_matches. cbn [forallb fst snd].
    rewrite andb_true_r. apply bool_decide_eq_true. exact Hd.
  - intros d' Hm ->. unfold matches, field_matches in Hm.
    cbn [forallb fst snd] in Hm.
    rewrite andb_true_r in Hm. apply bool_decide_eq_true in Hm.
    rewrite lookup_empty in Hm. discriminate.
Qed.

Lemma register_keeps_phones (s : signup) (w : world) :
  NoDup (column "phone" (coll w)) ->
  NoDup (column "phone" (coll (register s w).2)).
Proof.
  intros Hnd.
  destruct (register s w) as [o w'] eqn:E. apply register_run in E.
  inversion E; subst; try exact Hnd.
  cbn [snd store coll]. change (coll (after_insert_attempt s w bytes)) with (coll w).
  rewrite column_app. unfold column at 2. cbn [omap list_omap].
  unfold stored_document. rewrite lookup_insert_ne by discriminate.
  rewrite document_of_phone.
  destruct (signup_phone s) as [p|] eqn:Hphone;
    cbn [fmap option_fmap option_map omap list_omap].
  - apply NoDup_snoc; [exact Hnd|].
    intros (d & Hin & Hd)%in_column.
    assert (Ht : truthy (lookup_by (phone_query s) w) = true)
      by (apply (phone_found s p w d); assumption).
    congruence.
  - rewrite app_nil_r. exact Hnd.
Qed.

(** No two records with the same email: a request keeps it so. *)
Theorem emails_stay_unique (r : request) (w : world) :
  NoDup (column "email" (coll w)) ->
  NoDup (column "email" (coll (app r w).2)).
Proof.
  intros Hnd.
  destruct (parse r) as [[errs|s]|] eqn:Hp.
  - rewrite (app_invalid r errs w Hp). exact Hnd.
  - destruct (app_valid r s w Hp) as [-> _]. rewrite respond_world.
    apply register_keeps_emails. exact Hnd.
  - destruct (parse_get r Hp) as [->|[->| ->]]; unfold app; rewrite respond_world.
    + exact Hnd.
    + rewrite keeps_get_users_count. exact Hnd.
    + rewrite keeps_get_all_users. exact Hnd.
Qed.

(** No two records with the same phone value: a request keeps it so. *)
Theorem phones_stay_unique (r : request) (w : world) :
  NoDup (column "phone" (coll w)) ->
  NoDup (column "phone" (coll (app r w).2)).
Proof.
  intros Hnd.
  destruct (parse r) as [[errs|s]|] eqn:Hp.
  - rewrite (app_invalid r errs w Hp). exact Hnd.
  - destruct (app_valid r s w Hp) as [-> _]. rewrite respond_world.
    apply register_keeps_phones. exact Hnd.
  - destruct (parse_get r Hp) as [->|[->| ->]]; unfold app; rewrite respond_world.
    + exact Hnd.
    + rewrite keeps_get_users_count. exact Hnd.
    + rewrite keeps_get_all_users. exact Hnd.
Qed.

Lemma matches_user_type (l : pystr) (d : document) :
  matches [("user_type"%string, VStr l)] d
  = bool_decide (d !! "user_type"%string = Some (VStr l)).
Proof. unfold matches, field_matches. cbn [forallb fst snd]. apply andb_true_r. Qed.

Lemma typed_count (docs : list document) :
  Forall typed docs ->
  length docs =
    (length (of_type (lit "admin") docs) + length (of_type (lit "student") docs)
     + length (of_type (lit "school/college") docs)
     + length (of_type (lit "promoter") docs))%nat.
Proof.
  unfold of_type. induction 1 as [|d docs (l & Hl & Hin) Hrest IH]; [reflexivity|].
  cbn [List.filter length]. rewrite !matches_user_type, Hl.
  rewrite !elem_of_cons, elem_of_nil in Hin.
  destruct Hin as [->|[->|[->|[->|[]]]]];
    repeat match goal with
           | |- context [bool_decide (Some (VStr ?a) = Some (VStr ?b))] =>
               first
                 [ rewrite (bool_decide_eq_true_2 (Some (VStr a) = Some (VStr b)))
                     by reflexivity
                 | rewrite (bool_decide_eq_false_2 (Some (VStr a) = Some (VStr b)))
                     by (intros [= Heq]; vm_compute in Heq; discriminate Heq) ]
           end;
    cbn [length]; lia.
Qed.

(** When every record has one of the four [user_type] literals, a
    request keeps it so, and the total of the count endpoint is the sum of
    its four counts. *)
Theorem total_is_sum_of_types (r : request) (w : world) :
  Forall typed (coll w) ->
  let docs := coll (app r w).2 in
  Forall typed docs /\
  total_users (counts docs) =
    (admins (counts docs) + students (counts docs)
     + schools_colleges (counts docs) + promoters (counts docs))%nat.
Proof.
  intros Ht docs.
  assert (Ht' : Forall typed docs).
  { subst docs. destruct (app_coll r w) as [->|(s & bytes & _ & ->)]; [exact Ht|].
    apply Forall_app. split; [exact Ht|]. constructor; [|constructor].
    exists (role_literal s). unfold stored_document.
    rewrite lookup_insert_ne by discriminate.
    split; [apply document_of_user_type | apply role_literal_known]. }
  split; [exact Ht'|]. cbn [counts total_users admins students schools_colleges promoters].
  apply typed_count. exact Ht'.
Qed.

End Invariants.

(** ** Failures of the read endpoints *)

Section ReadFailures.

(** The first failure of the driver during [GET /users/count] is answered
    500 with the detail "Failed to fetch user count: " followed by the
    driver's message. *)
Theorem count_failure_is_reported (w : world) (i : nat) (msg : pystr) :
  (i < 5)%nat ->
  fault_at i w = Some msg ->
  (forall j, (j < i)%nat -> fault_at j w = None) ->
  (get_users_count w).1 =
    Raise (HTTPException HTTP_500_INTERNAL_SERVER_ERROR
             (lit "Failed to fetch user count: " ++ msg)).
Proof.
  intros Hi Hf Hbefore. unfold get_users_count, try_except.
  destruct i as [|[|[|[|[|i]]]]]; [..|lia];
    repeat (rewrite bind_unfold, count_documents_run, ?fault_at_log;
            first [ rewrite Hf; reflexivity | rewrite Hbefore by lia ]).
Qed.

Lemma stringify_ids_missing (us : list document) (w : world) :
  Exists (fun d : document => d !! "_id"%string = None) us ->
  stringify_ids (map (fun d => foldr delete d ["password"%string]) us) w
  = (Raise (KeyError "_id"), w).
Proof.
  induction us as [|d us IH]; intros Hex; [inversion Hex|].
  cbn [map stringify_ids].
  change (foldr delete d ["password"%string]) with (delete "password"%string d).
  rewrite bind_unfold. unfold getitem.
  rewrite lookup_delete_ne by discriminate.
  destruct (d !! "_id"%string) as [v|] eqn:Hd; [|reflexivity].
  cbn [ret]. rewrite bind_unfold, IH; [reflexivity|].
  inversion Hex as [? ? Hnone|]; subst; [congruence|assumption].
Qed.

(** [GET /users/all] answers 500 "Failed to fetch users: " followed by
    the text of the exception: the driver's message when the query fails,
    the quoted key ['_id'] when a fetched document has no [_id]. *)
Theorem listing_failure_is_reported (w : world) :
  (forall msg, fault_at 0 w = Some msg ->
     (get_all_users w).1 =
       Raise (HTTPException HTTP_500_INTERNAL_SERVER_ERROR
                (lit "Failed to fetch users: " ++ msg))) /\
  (fault_at 0 w = None ->
   Exists (fun d : document => d !! "_id"%string = None) (coll w) ->
   (get_all_users w).1 =
     Raise (HTTPException HTTP_500_INTERNAL_SERVER_ERROR
              (lit "Failed to fetch users: '_id'"))).
Proof.
  split.
  - intros msg Hf. unfold get_all_users, try_except.
    rewrite bind_unfold, find_run, Hf. reflexivity.
  - intros Hf Hex. unfold get_all_users, try_except.
    rewrite bind_unfold, find_run, Hf, filter_all.
    rewrite bind_unfold, stringify_ids_missing by exact Hex. reflexivity.
Qed.

End ReadFailures.

(** ** Encodings *)

Section Encodings.

Lemma length_utf8_bytes (c : codepoint) :
  (1 <= length (utf8_bytes c) <= 4)%nat.
Proof.
  unfold utf8_bytes.
  destruct (c <? 0x80); [simpl; lia|].
  destruct (c <? 0x800); [simpl; lia|].
  destruct (c <? 0x10000); simpl; lia.
Qed.

(** [encode] succeeds exactly on text without surrogates, and a text of
    [n] characters takes between [n] and [4 n] bytes. *)
Lemma utf8_length_bounds (s : pystr) :
  (forallb is_scalar s = true <-> is_Some (encode_utf8 s)) /\
  (forall bytes, encode_utf8 s = Some bytes ->
     (len s <= length bytes <= 4 * len s)%nat).
Proof.
  induction s as [|c s [IHiff IHlen]].
  - split; [split; [eauto|reflexivity]|]. intros bytes [= <-]. simpl. lia.
  - cbn [forallb encode_utf8]. destruct (is_scalar c) eqn:Hc; cbn [andb].
    + destruct (encode_utf8 s) as [bs|] eqn:He.
      * split; [split; [eauto|intros _; apply IHiff; eauto]|].
        intros bytes [= <-]. rewrite length_app. unfold len in *. cbn [length].
        pose proof (length_utf8_bytes c). specialize (IHlen bs eq_refl). lia.
      * split; [|discriminate]. split.
        -- intros Hs. apply IHiff in Hs. destruct Hs as [? [=]].
        -- intros [? [=]].
    + split; [|discriminate]. split; [discriminate|intros [? [=]]].
Qed.

Lemma ascii_encode (s : pystr) :
  forallb (fun c => c <? 0x80) s = true -> encode_utf8 s = Some s.
Proof.
  induction s as [|c s IH]; [reflexivity|].
  cbn [forallb encode_utf8]. intros [Hc Hs]%andb_true_iff.
  assert (Hsc : is_scalar c = true).
  { apply N.ltb_lt in Hc. unfold is_scalar, is_surrogate.
    apply andb_true_iff. split; [apply N.leb_le; lia|].
    apply negb_true_iff, andb_false_iff. left. apply N.leb_gt. lia. }
  rewrite Hsc, (IH Hs). unfold utf8_bytes. rewrite Hc. reflexivity.
Qed.

(** Whatever the secret, the text handed to bcrypt is 64 bytes long,
    under the 72 bytes bcrypt reads. *)
Theorem digest_fits_bcrypt (msg : list N) :
  byte_len (Sha256.hexdigest msg) = Some 64%nat.
Proof.
  unfold byte_len. rewrite ascii_encode.
  - rewrite <- (hexdigest_length msg). reflexivity.
  - pose proof (hexdigest_is_hex msg) as Hhex.
    rewrite forallb_forall in *. intros c Hc. specialize (Hhex c Hc).
    unfold is_hex in Hhex. apply N.ltb_lt.
    apply orb_true_iff in Hhex as [[_ Hh]%andb_true_iff|[_ Hh]%andb_true_iff];
      apply N.leb_le in Hh; lia.
Qed.

Lemma length_be_bytes (k : nat) (x : N) : length (Sha256.be_bytes k x) = k.
Proof. induction k as [|k IH]; simpl; [reflexivity|]. rewrite IH. reflexivity. Qed.

(** The padded message begins with the message and fills whole 64-byte
    blocks. *)
Lemma pad_fills_blocks (msg : list N) :
  take (length msg) (Sha256.pad msg) = msg /\
  (length (Sha256.pad msg) mod 64 = 0)%nat /\
  (length msg + 9 <= length (Sha256.pad msg) < length msg + 73)%nat.
Proof.
  unfold Sha256.pad. cbv zeta. split; [apply take_app_length|].
  rewrite !length_app, repeat_length, length_be_bytes. cbn [length].
  pose proof (Nat.mod_upper_bound (length msg) 64 ltac:(lia)) as Hr.
  pose proof (Nat.div_mod_eq (length msg) 64) as Hq.
  set (q := (length msg / 64)%nat) in *. set (r := (length msg mod 64)%nat) in *.
  destruct (le_lt_dec r 55) as [Hle|Hgt].
  - replace ((119 - r) mod 64)%nat with (55 - r)%nat
      by (apply (Nat.mod_unique _ _ 1); lia).
    split; [|lia].
    replace (length msg + (1 + (55 - r + 8)))%nat with ((q + 1) * 64)%nat by lia.
    apply Nat.Div0.mod_mul.
  - replace ((119 - r) mod 64)%nat with (119 - r)%nat
      by (symmetry; apply Nat.mod_small; lia).
    split; [|lia].
    replace (length msg + (1 + (119 - r + 8)))%nat with ((q + 2) * 64)%nat by lia.
    apply Nat.Div0.mod_mul.
Qed.

End Encodings.

(** ** More on the phone field and on required fields *)

Section Fields.
Context `{CryptContext} `{Pydantic.EmailValidator}.



(** A password that passes validation has 8 to 288 bytes in UTF-8: the
    72 of the schema bounds its characters, not its bytes. *)
Theorem validated_password_bytes (r : request) (s : signup) :
  parse r = Some (inr s) ->
  exists n, byte_len (signup_password s) = Some n /\ (8 <= n <= 288)%nat.
Proof.
  intros Hp.
  destruct (parse_password_sized r s Hp) as (Hsc & Hlo & Hhi).
  destruct (utf8_length_bounds (signup_password s)) as [Hiff Hlen].
  destruct (proj1 Hiff Hsc) as [bytes Hbytes].
  exists (length bytes). unfold byte_len. rewrite Hbytes. split; [reflexivity|].
  specialize (Hlen bytes Hbytes). lia.
Qed.



End Fields.

(** ** Collections made by the service *)

Section Served.
Context `{CryptContext} `{Pydantic.EmailValidator}.

Lemma stored_well_shaped (s : signup) (w : world) (bytes : list N) :
  well_shaped (stored_document s w bytes).
Proof.
  unfold well_shaped, stored_document.
  rewrite lookup_insert_eq, !lookup_insert_ne by discriminate.
  rewrite document_of_email, document_of_password, document_of_password_hash,
    document_of_is_active.
  repeat split; eauto.
  exists (role_literal s). rewrite lookup_insert_ne by discriminate.
  split; [apply document_of_user_type | apply role_literal_known].
Qed.

Lemma app_keeps_shape (r : request) (w : world) :
  Forall well_shaped (coll w) -> Forall well_shaped (coll (app r w).2).
Proof.
  intros Hall.
  destruct (app_coll r w) as [->|(s & bytes & _ & ->)]; [exact Hall|].
  apply Forall_app. split; [exact Hall|].
  constructor; [apply stored_well_shaped | constructor].
Qed.

Lemma serve_keeps_shape (rs : list request) (w : world) :
  Forall well_shaped (coll w) -> Forall well_shaped (coll (serve rs w)).
Proof.
  revert w. induction rs as [|r rs IH]; intros w Hall; [exact Hall|].
  cbn [serve]. apply IH. apply app_keeps_shape. exact Hall.
Qed.

(** Starting from an empty collection, whatever requests are served
    (valid or not, with or without failures of the driver): no two
    records share an email or a phone, and every record has an [_id], an
    email, a hash under [password] and none under [password_hash], one of
    the four [user_type] literals, and [is_active = true]. *)
Theorem served_collection_invariants (rs : list request) (w : world) :
  coll w = [] ->
  let docs := coll (serve rs w) in
  NoDup (column "email" docs) /\
  NoDup (column "phone" docs) /\
  Forall well_shaped docs.
Proof.
  intros Hempty docs. subst docs.
  assert (Hinit : NoDup (column "email" (coll w)) /\
                  NoDup (column "phone" (coll w)) /\
                  Forall well_shaped (coll w)).
  { rewrite Hempty. repeat split; constructor. }
  clear Hempty. revert w Hinit.
  induction rs as [|r rs IH]; intros w (He & Hp & Hall); [auto|].
  cbn [serve]. apply IH.
  split; [|split; [|apply app_keeps_shape; exact Hall]].
  - destruct (parse r) as [[errs|s]|] eqn:Hr.
    + rewrite (app_invalid r errs w Hr). exact He.
    + destruct (app_valid r s w Hr) as [-> _]. rewrite respond_world.
      apply register_keeps_emails. exact He.
    + destruct (app_coll r w) as [->|(s & bytes & Hs & _)]; [exact He|congruence].
  - destruct (parse r) as [[errs|s]|] eqn:Hr.
    + rewrite (app_invalid r errs w Hr). exact Hp.
    + destruct (app_valid r s w Hr) as [-> _]. rewrite respond_world.
      apply register_keeps_phones. exact Hp.
    + destruct (app_coll r w) as [->|(s & bytes & Hs & _)]; [exact Hp|congruence].
Qed.

(** On a collection made by the service, the listing returns every
    record, none with a [password] or a [password_hash] field. *)
Theorem listing_of_served_collection (rs : list request) (w : world) :
  coll w = [] ->
  fault_at 0 (serve rs w) = None ->
  exists r w',
    get_all_users (serve rs w) = (Return r, w') /\
    all_total_users r = length (coll (serve rs w)) /\
    length (users r) = length (coll (serve rs w)) /\
    Forall (fun u : document =>
              u !! "password"%string = None /\ u !! "password_hash"%string = None)
           (users r).
Proof.
  intros Hempty F0.
  assert (Hall : Forall well_shaped (coll (serve rs w))).
  { apply serve_keeps_shape. rewrite Hempty. constructor. }
  eexists _, _. split.
  - apply get_all_users_run; [exact F0|].
    eapply Forall_impl; [exact Hall|]. intros d Hd. apply Hd.
  - cbn [all_total_users users]. split; [reflexivity|].
    split; [apply length_map|].
    apply Forall_forall. intros u Hu. apply list_elem_of_In in Hu.
    apply in_map_iff in Hu as (d & <- & Hd).
    split; [apply listed_password|].
    rewrite listed_other by discriminate.
    rewrite Forall_forall in Hall. apply list_elem_of_In in Hd.
    apply (Hall d Hd).
Qed.

End Served.

(** ** The properties above at sample requests *)

Lemma validated_signup_is_well_formed_witness :
  request_body (POST_signup_admin Sample.admin_body) = Some Sample.admin_body /\
  @parse Sample.emails (POST_signup_admin Sample.admin_body)
    = Some (inr (Admin Sample.admin)) /\
  well_formed_signup Sample.admin_body (Admin Sample.admin).
Proof.
  assert (H1 : request_body (POST_signup_admin Sample.admin_body)
               = Some Sample.admin_body) by reflexivity.
  assert (H2 : @parse Sample.emails (POST_signup_admin Sample.admin_body)
               = Some (inr (Admin Sample.admin))) by (vm_compute; reflexivity).
  split; [exact H1|]. split; [exact H2|].
  exact (@validated_signup_is_well_formed Sample.emails _ _ _ H1 H2).
Defined.



Lemma used_phone_is_refused_witness :
  let w := (@register Sample.ctx (Admin Sample.admin) Sample.empty).2 in
  let s := Promoter (PromoterSignup.Build (lit "other@example.com")
                       (lit "promoter123") (lit "+92 12345678910") (lit "Other")) in
  let d := hd ∅ (coll w) in
  signup_phone s = Some (lit "+92 12345678910") /\
  d ∈ coll w /\ d !! "phone"%string = Some (VStr (lit "+92 12345678910")) /\
  (@register Sample.ctx s w).1 = Raise phone_taken.
Proof.
  intros w s d.
  assert (H1 : code_accepted s = true) by reflexivity.
  assert (H2 : signup_phone s = Some (lit "+92 12345678910")) by reflexivity.
  assert (H3 : fault_at 0 w = None) by reflexivity.
  assert (H4 : fault_at 1 w = None) by reflexivity.
  assert (Hcoll : coll w = [d]) by (vm_compute; reflexivity).
  assert (H5 : forall d' : document, d' ∈ coll w ->
                 d' !! "email"%string <> Some (VStr (signup_email s))).
  { intros d' Hd'. rewrite Hcoll in Hd'. apply list_elem_of_singleton in Hd'.
    subst d'. vm_compute. discriminate. }
  assert (H6 : d ∈ coll w) by (rewrite Hcoll; apply list_elem_of_here).
  assert (H7 : d !! "phone"%string = Some (VStr (lit "+92 12345678910")))
    by (vm_compute; reflexivity).
  split; [exact H2|]. split; [exact H6|]. split; [exact H7|].
  destruct (@used_phone_is_refused Sample.ctx s _ w d H1 H2 H3 H4 H5 H6 H7) as [E _].
  rewrite E. reflexivity.
Defined.

Lemma insert_failure_is_reported_witness :
  @parse Sample.emails (POST_signup_admin Sample.admin_body)
    = Some (inr (Admin Sample.admin)) /\
  fault_at 2 (Sample.failing 2) = Some (lit "connection refused") /\
  (@app Sample.ctx Sample.emails (POST_signup_admin Sample.admin_body)
     (Sample.failing 2)).1
  = HTTPError HTTP_500_INTERNAL_SERVER_ERROR
      (lit "Registration failed: connection refused").
Proof.
  assert (H1 : @parse Sample.emails (POST_signup_admin Sample.admin_body)
               = Some (inr (Admin Sample.admin))) by (vm_compute; reflexivity).
  assert (H2 : fault_at 2 (Sample.failing 2) = Some (lit "connection refused"))
    by reflexivity.
  split; [exact H1|]. split; [exact H2|].
  exact (proj1 (@insert_failure_is_reported Sample.ctx Sample.emails _ _
                  (Sample.failing 2) _ H1 eq_refl eq_refl eq_refl H2 eq_refl eq_refl)).
Defined.

Lemma lookup_failure_is_not_caught_witness :
  @parse Sample.emails (POST_signup_admin Sample.admin_body)
    = Some (inr (Admin Sample.admin)) /\
  fault_at 0 (Sample.failing 0) = Some (lit "connection refused") /\
  (@app Sample.ctx Sample.emails (POST_signup_admin Sample.admin_body)
     (Sample.failing 0)).1 = InternalServerError.
Proof.
  assert (H1 : @parse Sample.emails (POST_signup_admin Sample.admin_body)
               = Some (inr (Admin Sample.admin))) by (vm_compute; reflexivity).
  assert (H2 : fault_at 0 (Sample.failing 0) = Some (lit "connection refused"))
    by reflexivity.
  split; [exact H1|]. split; [exact H2|].
  exact (proj1 (@lookup_failure_is_not_caught Sample.ctx Sample.emails _ _
                  (Sample.failing 0) _ H1 eq_refl (or_introl H2))).
Defined.

Lemma phoneless_student_is_refused_witness :
  let w := (@student_signup Sample.ctx Sample.ali Sample.empty).2 in
  let d := hd ∅ (coll w) in
  StudentSignup.phone Sample.sara = None /\
  d ∈ coll w /\ d !! "phone"%string = None /\
  (@student_signup Sample.ctx Sample.sara w).1 = Raise phone_taken.
Proof.
  intros w d.
  assert (H1 : StudentSignup.phone Sample.sara = None) by reflexivity.
  assert (H2 : fault_at 0 w = None) by reflexivity.
  assert (H3 : fault_at 1 w = None) by reflexivity.
  assert (Hcoll : coll w = [d]) by (vm_compute; reflexivity).
  assert (H4 : forall d' : document, d' ∈ coll w ->
                 d' <> ∅ /\
                 d' !! "email"%string <> Some (VStr (StudentSignup.email Sample.sara))).
  { intros d' Hd'. rewrite Hcoll in Hd'. apply list_elem_of_singleton in Hd'.
    subst d'. split.
    - intros Heq. apply (f_equal (fun m : document => m !! "email"%string)) in Heq.
      vm_compute in Heq. discriminate Heq.
    - vm_compute. discriminate. }
  assert (H5 : d ∈ coll w) by (rewrite Hcoll; apply list_elem_of_here).
  assert (H6 : d !! "phone"%string = None) by (vm_compute; reflexivity).
  split; [exact H1|]. split; [exact H5|]. split; [exact H6|].
  destruct (@phoneless_student_is_refused Sample.ctx Sample.sara w d
              H1 H2 H3 H4 H5 H6) as [E _].
  rewrite E. reflexivity.
Defined.

Lemma emails_stay_unique_witness :
  NoDup (column "email" (coll Sample.empty)) /\
  NoDup (column "email"
           (coll (@app Sample.ctx Sample.emails
                    (POST_signup_admin Sample.admin_body) Sample.empty).2)).
Proof.
  assert (H1 : NoDup (column "email" (coll Sample.empty))) by apply NoDup_nil_2.
  split; [exact H1|].
  exact (@emails_stay_unique Sample.ctx Sample.emails _ _ H1).
Defined.

Lemma phones_stay_unique_witness :
  NoDup (column "phone" (coll Sample.empty)) /\
  NoDup (column "phone"
           (coll (@app Sample.ctx Sample.emails
                    (POST_signup_admin Sample.admin_body) Sample.empty).2)).
Proof.
  assert (H1 : NoDup (column "phone" (coll Sample.empty))) by apply NoDup_nil_2.
  split; [exact H1|].
  exact (@phones_stay_unique Sample.ctx Sample.emails _ _ H1).
Defined.

Lemma total_is_sum_of_types_witness :
  Forall typed (coll Sample.legacy) /\
  Forall typed (coll (@app Sample.ctx Sample.emails
                        (POST_signup_admin Sample.admin_body) Sample.legacy).2).
Proof.
  assert (H1 : Forall typed (coll Sample.legacy)).
  { repeat constructor. exists (lit "student").
    split; [reflexivity|]. rewrite !elem_of_cons. auto. }
  split; [exact H1|].
  exact (proj1 (@total_is_sum_of_types Sample.ctx Sample.emails _ _ H1)).
Defined.

Lemma count_failure_is_reported_witness :
  fault_at 3 (Sample.failing 3) = Some (lit "connection refused") /\
  (forall j, (j < 3)%nat -> fault_at j (Sample.failing 3) = None) /\
  (get_users_count (Sample.failing 3)).1 =
    Raise (HTTPException HTTP_500_INTERNAL_SERVER_ERROR
             (lit "Failed to fetch user count: connection refused")).
Proof.
  assert (H1 : fault_at 3 (Sample.failing 3) = Some (lit "connection refused"))
    by reflexivity.
  assert (H2 : forall j, (j < 3)%nat -> fault_at j (Sample.failing 3) = None).
  { intros j Hj. destruct j as [|[|[|j]]]; try reflexivity. lia. }
  split; [exact H1|]. split; [exact H2|].
  exact (count_failure_is_reported (Sample.failing 3) 3 _ ltac:(lia) H1 H2).
Defined.



Lemma served_collection_invariants_witness :
  coll Sample.empty = [] /\
  NoDup (column "email"
           (coll (@serve Sample.ctx Sample.emails
                    [POST_signup_admin Sample.admin_body;
                     POST_signup_admin Sample.admin_body] Sample.empty))).
Proof.
  assert (H1 : coll Sample.empty = []) by reflexivity.
  split; [exact H1|].
  exact (proj1 (@served_collection_invariants Sample.ctx Sample.emails
                  [POST_signup_admin Sample.admin_body;
                   POST_signup_admin Sample.admin_body] Sample.empty H1)).
Defined.

Lemma listing_of_served_collection_witness :
  let w := @serve Sample.ctx Sample.emails
             [POST_signup_admin Sample.admin_body] Sample.empty in
  coll Sample.empty = [] /\
  fault_at 0 w = None /\
  exists r w',
    get_all_users w = (Return r, w') /\ all_total_users r = length (coll w).
Proof.
  intros w.
  assert (H1 : coll Sample.empty = []) by reflexivity.
  assert (H2 : fault_at 0 w = None) by reflexivity.
  split; [exact H1|]. split; [exact H2|].
  destruct (@listing_of_served_collection Sample.ctx Sample.emails
              [POST_signup_admin Sample.admin_body] Sample.empty H1 H2)
    as (r & w' & E & Ht & _).
  exists r, w'. split; [exact E | exact Ht].
Defined.

Lemma validated_password_bytes_witness :
  @parse Sample.emails (POST_signup_promoter (Sample.promoter_body (repeat 0xE9 40)))
    = Some (inr (Promoter (PromoterSignup.Build (lit "promoter@example.com")
                             (repeat 0xE9 40) (lit "+92 12345678913")
                             (lit "Promoter Name")))) /\
  exists n, byte_len (repeat 0xE9 40) = Some n /\ (8 <= n <= 288)%nat.
Proof.
  assert (H1 : @parse Sample.emails
                 (POST_signup_promoter (Sample.promoter_body (repeat 0xE9 40)))
               = Some (inr (Promoter (PromoterSignup.Build (lit "promoter@example.com")
                                        (repeat 0xE9 40) (lit "+92 12345678913")
                                        (lit "Promoter Name")))))
    by (vm_compute; reflexivity).
  split; [exact H1|].
  exact (@validated_password_bytes Sample.emails _ _ H1).
Defined.
